(** * Voice record bar (history_view_voice_record_bar.cpp)

    A shallow embedding of the press-and-hold voice recording control of
    Telegram Desktop: the duration formatter, the level button's hit test,
    the lock widget and the session controller [VoiceRecordBar].

    Conventions of the embedding.
    - [int] values are integers of [Z]; where the source computes with
      them in a way that could leave the 32-bit range the wrap-around is
      written out ([Int32]).
    - [float64] values are modelled by exact rationals.  The source uses
      them in three places only: the stored lock progress (compared with
      the constants 0 and 1), one quotient of two [int]s that is clamped
      to [0, 1], and one quotient of two [int]s that is scaled by ten and
      truncated.  Rounding of binary64 is not modelled; [Binary64] runs the
      truncated quotient in IEEE arithmetic, to compare the two where
      rounding could show, at the multiples of a tenth of a second.
    - [rpl::variable<T>] is a stored value whose assignment notifies the
      subscribers of [changes()] when the new value differs from the old.
    - An animation ([Ui::Animations::Simple]) is a slot holding the
      callback of the animation in flight; starting it again replaces the
      callback, and the last frame delivers the target value with the
      slot already empty.
    - Everything the widget tells the outside world (fired event streams,
      calls into the capture backend) is appended to a log kept in the
      state. *)

From Stdlib Require Import ZArith QArith Bool List String Ascii Lia.
From Stdlib Require Import DecimalString.
From Stdlib Require Floats Uint63.
Import ListNotations.

Open Scope Z_scope.

(** ** 32-bit [int] *)

Module Int32.

Definition min_int : Z := - 2 ^ 31.
Definition max_int : Z := 2 ^ 31 - 1.

Definition in_range (z : Z) : Prop := min_int <= z <= max_int.

(** Two's complement reduction to 32 bits. *)
Definition wrap (z : Z) : Z := (z + 2 ^ 31) mod 2 ^ 32 - 2 ^ 31.

Definition add (a b : Z) : Z := wrap (a + b).
Definition sub (a b : Z) : Z := wrap (a - b).
Definition mul (a b : Z) : Z := wrap (a * b).
(** [std::abs(int)] *)
Definition abs (a : Z) : Z := wrap (Z.abs a).

End Int32.

(** ** [float64] as exact rationals *)

Definition float64 : Type := Q.

(** [float64(n)] for an [int] n. *)
Definition float64_of_int (n : Z) : float64 := inject_Z n.

(** Conversion of a [float64] to [int]: the fractional part is dropped
    (truncation toward zero).  The conversion is defined by the language
    only when the truncated value fits an [int]. *)
Definition int_of_float64 (q : float64) : Z :=
  Z.quot (Qnum q) (Zpos (Qden q)).

(** [a < b] on [float64]. *)
Definition flt (a b : float64) : bool := negb (Qle_bool b a).

(** [std::clamp(v, lo, hi)]. *)
Definition clamp (v lo hi : float64) : float64 :=
  if flt v lo then lo else if flt hi v then hi else v.

(** [QString::number(int)]. *)
Definition QString_number (n : Z) : string :=
  NilZero.string_of_int (Z.to_int n).

(** The decimal digit character of [d], for [0 <= d <= 9]. *)
Definition digit_char (d : Z) : ascii :=
  ascii_of_nat (48 + Z.to_nat d).

Record QPoint : Type := mkQPoint { px : Z; py : Z }.

(** ** Constants and helpers of the anonymous namespace *)

Definition kAudioVoiceMaxLength : Z := 100 * 60. (* 100 minutes *)
Definition kPrecision : Z := 10.

Section Helpers.

(** [::Media::Player::kDefaultFrequency], declared in
    media/audio/media_audio.h: the sample rate of the capture backend. *)
Variable kDefaultFrequency : Z.

(** [Ui::FormatDurationText], declared in ui/text/format_values.h. *)
Variable FormatDurationText : Z -> string.

(** [QLocale::system().decimalPoint()]. *)
Variable decimalPoint : ascii.

Definition kMaxSamples : Z := kDefaultFrequency * kAudioVoiceMaxLength.

Definition Duration (samples : Z) : Z :=
  Z.quot samples kDefaultFrequency.

(** The [int duration] local of [FormatVoiceDuration]: tenths of a
    second. *)
Definition voiceDurationTenths (samples : Z) : Z :=
  int_of_float64
    (float64_of_int kPrecision
     * (float64_of_int samples / float64_of_int kDefaultFrequency))%Q.

Definition FormatVoiceDuration (samples : Z) : string :=
  let duration := voiceDurationTenths samples in
  let durationString := FormatDurationText (Z.quot duration kPrecision) in
  let decimalPart := Z.rem duration kPrecision in
  (durationString ++ String decimalPoint (QString_number decimalPart))%string.

End Helpers.

(** ** The tenths of [FormatVoiceDuration] in binary64

    The same computation as [voiceDurationTenths] on the kernel's IEEE 754
    binary64 numbers. *)

Module Binary64.

Definition of_int (z : Z) : PrimFloat.float :=
  if z <? 0
  then PrimFloat.opp (PrimFloat.of_uint63 (Uint63.of_Z (- z)))
  else PrimFloat.of_uint63 (Uint63.of_Z z).

(** Truncation toward zero of a finite number. *)
Definition to_int (x : PrimFloat.float) : Z :=
  match FloatOps.Prim2SF x with
  | SpecFloat.S754_finite s m e =>
      let v := if 0 <=? e then Zpos m * 2 ^ e else Zpos m / 2 ^ (- e) in
      if s then - v else v
  | _ => 0
  end.

Definition voiceDurationTenths64 (kDefaultFrequency samples : Z) : Z :=
  to_int
    (PrimFloat.mul (of_int kPrecision)
       (PrimFloat.div (of_int samples) (of_int kDefaultFrequency))).

(** Both models give the same tenths for [samples]. *)
Definition agrees (kDefaultFrequency samples : Z) : bool :=
  voiceDurationTenths64 kDefaultFrequency samples
  =? voiceDurationTenths kDefaultFrequency samples.

(** Agreement at the first [n] multiples of a tenth of a second, one
    sample before and one sample after each. *)
Definition agreesAtTenths (kDefaultFrequency : Z) (n : nat) : bool :=
  forallb
    (fun k =>
       let s := Z.quot kDefaultFrequency kPrecision * Z.of_nat k in
       agrees kDefaultFrequency s
       && agrees kDefaultFrequency (s - 1)
       && agrees kDefaultFrequency (s + 1))
    (seq 0 n).

End Binary64.

(** Modelled from the spec: [Ui::FormatDurationText] lives in
    ui/text/format_values.cpp, which is not among the sources.  The spec
    gives its result for zero seconds, 0:00, and for one second, 0:01:
    the minutes, a colon, and the seconds on two digits. *)
Definition FormatDurationText (duration : Z) : string :=
  let minutes := Z.quot duration 60 in
  let seconds := Z.rem duration 60 in
  (QString_number minutes ++ ":"
   ++ (if seconds >=? 10 then "" else "0") ++ QString_number seconds)%string.

(** ** RecordLevel: the level button *)

Module RecordLevel.

Section Style.

(** [st::historyRecordLevelMaxRadius], a style constant. *)
Variable historyRecordLevelMaxRadius : Z.

Record t : Type := mk {
  _height : Z;
  _center : Z
}.

(** The constructor's member initialisers. *)
Definition create : t :=
  let h := Int32.mul historyRecordLevelMaxRadius 2 in
  {| _height := h; _center := Z.quot h 2 |}.

Definition inCircle (self : t) (localPos : QPoint) : bool :=
  let radii := historyRecordLevelMaxRadius in
  let dx := Int32.abs (Int32.sub (px localPos) (_center self)) in
  if dx >? radii then false
  else
    let dy := Int32.abs (Int32.sub (py localPos) (_center self)) in
    if dy >? radii then false
    else if Int32.add dx dy <=? radii then true
    else Int32.add (Int32.mul dx dx) (Int32.mul dy dy)
         <=? Int32.mul radii radii.

(** The hit test in the spec's words: the Euclidean distance of the
    point from the centre [(c, c)] is within the radius, that is, the
    squared distance is at most the squared radius. *)
Definition withinRadius (c : Z) (p : QPoint) : bool :=
  (px p - c) * (px p - c) + (py p - c) * (py p - c)
  <=? historyRecordLevelMaxRadius * historyRecordLevelMaxRadius.

End Style.

End RecordLevel.

(** ** RecordLock: the slide-to-lock widget *)

Module RecordLock.

Record t : Type := mk {
  hidden : bool;
  _progress : float64             (* rpl::variable<float64> *)
}.

(** The widget after construction and the [_lock->hide()] of
    [VoiceRecordBar::init]. *)
Definition initial : t := {| hidden := true; _progress := 0%Q |}.

Definition isHidden (l : t) : bool := hidden l.

Definition isLocked (l : t) : bool := Qeq_bool (_progress l) 1%Q.

(** [_progress = v]: the value is stored and [_progress.changes()]
    fires when it differs from the current one.  The boolean tells
    whether it fired. *)
Definition assignProgress (v : float64) (l : t) : t * bool :=
  if Qeq_bool (_progress l) v then (l, false)
  else ({| hidden := hidden l; _progress := v |}, true).

(** [requestPaintProgress].  The boolean tells whether [locks()] fired:
    [locks()] is [_progress.changes()] filtered by [isLocked()]. *)
Definition requestPaintProgress (progress : float64) (l : t) : t * bool :=
  if isHidden l || isLocked l then (l, false)
  else
    let '(l', changed) := assignProgress progress l in
    (l', changed && isLocked l').

Definition show (l : t) : t :=
  {| hidden := false; _progress := _progress l |}.

(** [hide()]: the [shownValue()] subscription of [init] stores 0; the
    change passes no [isLocked()] filter. *)
Definition hide (l : t) : t :=
  if hidden l then l
  else fst (assignProgress 0%Q {| hidden := true; _progress := _progress l |}).

(** A run of [requestPaintProgress] calls, counting the [locks()]
    events. *)
Fixpoint requestPaintProgressAll (ps : list float64) (l : t) : t * nat :=
  match ps with
  | [] => (l, 0%nat)
  | p :: ps' =>
      let '(l1, fired) := requestPaintProgress p l in
      let '(l2, n) := requestPaintProgressAll ps' l1 in
      (l2, ((if fired then 1 else 0) + n)%nat)
  end.

End RecordLock.

(** ** VoiceRecordBar: the session controller *)

Module VoiceRecordBar.

(** [Media::Capture::Result] *)
Record Result : Type := mkResult {
  res_bytes : list Byte.byte;
  res_waveform : list Z;
  res_samples : Z
}.

(** [VoiceRecordBar::VoiceToSend] *)
Record VoiceToSend : Type := mkVoiceToSend {
  bytes : list Byte.byte;
  waveform : list Z;
  duration : Z
}.

(** [Api::SendProgressType]; only [RecordVoice] is used here. *)
Inductive SendProgressType : Type := RecordVoice.

(** [VoiceRecordBar::SendActionUpdate]; [progress] defaults to 0. *)
Record SendActionUpdate : Type := mkSendActionUpdate {
  type : SendProgressType;
  progress : Z
}.

(** What the bar tells the outside: the events fired on its producers
    and the calls it makes on [Media::Capture::instance()]. *)
Inductive Effect : Type :=
| SendActionUpdates (u : SendActionUpdate)
| SendVoiceRequests (v : VoiceToSend)
| RecordingStateChanges (recording : bool)
| LockShowStarts (show : bool)
| CaptureStart
| CaptureStop                    (* instance()->stop() *)
| CaptureStopWithResult.         (* instance()->stop(callback) *)

Inductive Key : Type := Key_Escape | Key_Enter | Key_Return | Key_Other.

Inductive QEvent : Type :=
| KeyPress (key : Key)
| ContextMenu
| Shortcut
| MouseButtonPress
| MouseMove (globalPos : QPoint)
| MouseButtonRelease
| OtherEvent.

Inductive FilterType : Type := Continue | ShowBox | Cancel.

(** [base::EventFilterResult] *)
Inductive EventFilterResult : Type := FilterContinue | FilterCancel.

(** The callback handed to [visibilityAnimate]. *)
Inductive ShowCallback : Type :=
| Appearance                      (* of startRecording *)
| Disappearance (send : bool).    (* of stop(send) *)

(** What [_recordingLifetime] holds. *)
Record Lifetime : Type := mkLifetime {
  captureUpdated : option bool;   (* instance()->updated(), with [*shown] *)
  sendEvents : bool;              (* move and release on the send button *)
  levelClicks : bool;
  levelActives : bool;
  clickOutsideFilter : option (option nat)
                                  (* the filter, with its QPointer<ConfirmBox> *)
}.

Definition emptyLifetime : Lifetime :=
  {| captureUpdated := None; sendEvents := false; levelClicks := false;
     levelActives := false; clickOutsideFilter := None |}.

(** What the bar reads from its surroundings. *)
Record Host : Type := mkHost {
  barPos : QPoint;                (* global position of the bar *)
  barWidth : Z;
  barHeight : Z;
  levelPos : QPoint;              (* global position of the level button *)
  lockHeight : Z;                 (* _lock->height() *)
  sendTypeRecord : bool;          (* _send->type() == Type::Record *)
  captureAvailable : bool;        (* instance()->available() *)
  _escFilter : option bool        (* the result of _escFilter(), when set *)
}.

Record State : Type := mkState {
  host : Host;
  alive : bool;                   (* the object has not been destroyed *)
  _recording : bool;              (* rpl::variable<bool> *)
  _inField : bool;                (* rpl::variable<bool> *)
  _lockShowing : bool;            (* rpl::variable<bool> *)
  _recordingSamples : Z;
  _lock : RecordLock.t;
  _showAnimation : option ShowCallback;
  _showLockAnimation : option bool;
  _recordingLifetime : Lifetime;
  resultPending : nat;            (* result callbacks the backend holds *)
  boxes : list nat;               (* the ConfirmBox objects that exist *)
  nextBox : nat;
  log : list Effect
}.

Definition set_alive (v : bool) (s : State) : State :=
  mkState (host s) v (_recording s) (_inField s) (_lockShowing s)
    (_recordingSamples s) (_lock s) (_showAnimation s)
    (_showLockAnimation s) (_recordingLifetime s) (resultPending s)
    (boxes s) (nextBox s) (log s).

Definition set_recording (v : bool) (s : State) : State :=
  mkState (host s) (alive s) v (_inField s) (_lockShowing s)
    (_recordingSamples s) (_lock s) (_showAnimation s)
    (_showLockAnimation s) (_recordingLifetime s) (resultPending s)
    (boxes s) (nextBox s) (log s).

Definition set_inField (v : bool) (s : State) : State :=
  mkState (host s) (alive s) (_recording s) v (_lockShowing s)
    (_recordingSamples s) (_lock s) (_showAnimation s)
    (_showLockAnimation s) (_recordingLifetime s) (resultPending s)
    (boxes s) (nextBox s) (log s).

Definition set_lockShowing (v : bool) (s : State) : State :=
  mkState (host s) (alive s) (_recording s) (_inField s) v
    (_recordingSamples s) (_lock s) (_showAnimation s)
    (_showLockAnimation s) (_recordingLifetime s) (resultPending s)
    (boxes s) (nextBox s) (log s).

Definition set_recordingSamples (v : Z) (s : State) : State :=
  mkState (host s) (alive s) (_recording s) (_inField s) (_lockShowing s)
    v (_lock s) (_showAnimation s)
    (_showLockAnimation s) (_recordingLifetime s) (resultPending s)
    (boxes s) (nextBox s) (log s).

Definition set_lock (v : RecordLock.t) (s : State) : State :=
  mkState (host s) (alive s) (_recording s) (_inField s) (_lockShowing s)
    (_recordingSamples s) v (_showAnimation s)
    (_showLockAnimation s) (_recordingLifetime s) (resultPending s)
    (boxes s) (nextBox s) (log s).

Definition set_showAnimation (v : option ShowCallback) (s : State) : State :=
  mkState (host s) (alive s) (_recording s) (_inField s) (_lockShowing s)
    (_recordingSamples s) (_lock s) v
    (_showLockAnimation s) (_recordingLifetime s) (resultPending s)
    (boxes s) (nextBox s) (log s).

Definition set_showLockAnimation (v : option bool) (s : State) : State :=
  mkState (host s) (alive s) (_recording s) (_inField s) (_lockShowing s)
    (_recordingSamples s) (_lock s) (_showAnimation s)
    v (_recordingLifetime s) (resultPending s)
    (boxes s) (nextBox s) (log s).

Definition set_recordingLifetime (v : Lifetime) (s : State) : State :=
  mkState (host s) (alive s) (_recording s) (_inField s) (_lockShowing s)
    (_recordingSamples s) (_lock s) (_showAnimation s)
    (_showLockAnimation s) v (resultPending s)
    (boxes s) (nextBox s) (log s).

Definition set_resultPending (v : nat) (s : State) : State :=
  mkState (host s) (alive s) (_recording s) (_inField s) (_lockShowing s)
    (_recordingSamples s) (_lock s) (_showAnimation s)
    (_showLockAnimation s) (_recordingLifetime s) v
    (boxes s) (nextBox s) (log s).

Definition set_boxes (v : list nat) (n : nat) (s : State) : State :=
  mkState (host s) (alive s) (_recording s) (_inField s) (_lockShowing s)
    (_recordingSamples s) (_lock s) (_showAnimation s)
    (_showLockAnimation s) (_recordingLifetime s) (resultPending s)
    v n (log s).

(** Appends one effect to the log. *)
Definition emit (e : Effect) (s : State) : State :=
  mkState (host s) (alive s) (_recording s) (_inField s) (_lockShowing s)
    (_recordingSamples s) (_lock s) (_showAnimation s)
    (_showLockAnimation s) (_recordingLifetime s) (resultPending s)
    (boxes s) (nextBox s) (log s ++ [e]).

Definition set_captureUpdated (v : option bool) (l : Lifetime) : Lifetime :=
  mkLifetime v (sendEvents l) (levelClicks l) (levelActives l)
    (clickOutsideFilter l).

Definition set_sendEvents (v : bool) (l : Lifetime) : Lifetime :=
  mkLifetime (captureUpdated l) v (levelClicks l) (levelActives l)
    (clickOutsideFilter l).

Definition set_levelClicks (v : bool) (l : Lifetime) : Lifetime :=
  mkLifetime (captureUpdated l) (sendEvents l) v (levelActives l)
    (clickOutsideFilter l).

Definition set_levelActives (v : bool) (l : Lifetime) : Lifetime :=
  mkLifetime (captureUpdated l) (sendEvents l) (levelClicks l) v
    (clickOutsideFilter l).

Definition set_clickOutsideFilter (v : option (option nat)) (l : Lifetime)
  : Lifetime :=
  mkLifetime (captureUpdated l) (sendEvents l) (levelClicks l)
    (levelActives l) v.

Definition inLifetime (f : Lifetime -> Lifetime) (s : State) : State :=
  set_recordingLifetime (f (_recordingLifetime s)) s.

Definition animating {A : Type} (a : option A) : bool :=
  match a with Some _ => true | None => false end.

(** [QWidget::mapFromGlobal] for a widget whose top left corner is at
    the global position [origin]. *)
Definition mapFromGlobal (origin globalPos : QPoint) : QPoint :=
  mkQPoint (px globalPos - px origin) (py globalPos - py origin).

(** [QRect(0, 0, w, h).contains(p)] *)
Definition rectContains (w h : Z) (p : QPoint) : bool :=
  (0 <=? px p) && (px p <? w) && (0 <=? py p) && (py p <? h).

(** The bar after its constructor and [init()]. *)
Definition initial (h : Host) : State :=
  {| host := h; alive := true; _recording := false; _inField := false;
     _lockShowing := false; _recordingSamples := 0;
     _lock := RecordLock.initial; _showAnimation := None;
     _showLockAnimation := None; _recordingLifetime := emptyLifetime;
     resultPending := 0%nat; boxes := []; nextBox := 0%nat; log := [] |}.

Section Controller.

Variable kDefaultFrequency : Z.
Variable historyRecordLevelMaxRadius : Z.

Definition isRecording (s : State) : bool := _recording s.

Definition isTypeRecord (s : State) : bool := sendTypeRecord (host s).

(** [_recording = v], with [recordingStateChanges()]. *)
Definition assign_recording (v : bool) (s : State) : State :=
  if Bool.eqb (_recording s) v then s
  else emit (RecordingStateChanges v) (set_recording v s).

(** [_inField = v]; its subscriber only animates the colours. *)
Definition assign_inField (v : bool) (s : State) : State :=
  set_inField v s.

(** [_lockShowing = v], with [lockShowStarts()] and the subscriber of
    [init()]: the lock widget is shown and the slide animation
    started. *)
Definition assign_lockShowing (v : bool) (s : State) : State :=
  if Bool.eqb (_lockShowing s) v then s
  else
    let s1 := emit (LockShowStarts v) (set_lockShowing v s) in
    set_showLockAnimation (Some v)
      (set_lock (RecordLock.show (_lock s1)) s1).

Definition visibilityAnimate (callback : ShowCallback) (s : State)
  : State :=
  set_showAnimation (Some callback) s.

Definition stop (send : bool) (s : State) : State :=
  visibilityAnimate (Disappearance send) (assign_lockShowing false s).

Definition stopRecording (send : bool) (s : State) : State :=
  if negb send then emit CaptureStop s
  else
    set_resultPending (S (resultPending s)) (emit CaptureStopWithResult s).

(** The callback guarded by [this] that [stopRecording(true)] hands to
    the capture backend. *)
Definition resultCallback (data : Result) (s : State) : State :=
  match res_bytes data with
  | [] => s
  | _ :: _ =>
      let duration := Duration kDefaultFrequency (res_samples data) in
      emit (SendVoiceRequests
              (mkVoiceToSend (res_bytes data) (res_waveform data) duration))
        s
  end.

Definition disappearanceCallback (send : bool) (s : State) : State :=
  let s1 := assign_recording false s in
  let s2 := stopRecording send s1 in
  let s3 := assign_inField false s2 in
  let s4 := set_recordingLifetime emptyLifetime s3 in
  let s5 := set_recordingSamples 0 s4 in
  emit (SendActionUpdates (mkSendActionUpdate RecordVoice (-1))) s5.

Definition appearanceCallback (s : State) : State :=
  if negb (captureAvailable (host s)) then stop false s
  else
    let s1 := inLifetime (set_captureUpdated (Some false)) s in
    let s2 := assign_recording true s1 in
    emit CaptureStart s2.

(** The last frame of [_showAnimation]. *)
Definition showAnimationDone (s : State) : State :=
  match _showAnimation s with
  | None => s
  | Some callback =>
      let s1 := set_showAnimation None s in
      match callback with
      | Appearance => appearanceCallback s1
      | Disappearance send => disappearanceCallback send s1
      end
  end.

(** The progress that [computeAndSetLockProgress] hands to the lock
    widget. *)
Definition lockProgress (s : State) (globalPos : QPoint) : float64 :=
  let localPos := mapFromGlobal (barPos (host s)) globalPos in
  let lower := lockHeight (host s) in
  let higher := 0 in
  let progress :=
    (float64_of_int (py localPos) / float64_of_int (higher - lower))%Q in
  clamp progress 0%Q 1%Q.

(** The [installClickOutsideFilter] call of the [locks()] subscriber;
    the pointer to the box starts out null. *)
Definition installClickOutsideFilter (s : State) : State :=
  inLifetime (set_clickOutsideFilter (Some None)) s.

(** The subscriber of [_lock->locks()] set up in [init()]. *)
Definition onLocks (s : State) : State :=
  let s1 := installClickOutsideFilter s in
  let s2 := inLifetime (set_levelClicks true) s1 in
  let s3 := assign_inField false s2 in
  inLifetime (set_levelActives true) s3.

Definition computeAndSetLockProgress (globalPos : QPoint) (s : State)
  : State :=
  let '(l, locked) :=
    RecordLock.requestPaintProgress (lockProgress s globalPos) (_lock s) in
  let s1 := set_lock l s in
  if locked then onLocks s1 else s1.

(** The last frame of [_showLockAnimation]; [cursor] is
    [QCursor::pos()]. *)
Definition showLockAnimationDone (cursor : QPoint) (s : State) : State :=
  match _showLockAnimation s with
  | None => s
  | Some show =>
      let s1 := set_showLockAnimation None s in
      if show then computeAndSetLockProgress cursor s1
      else set_lock (RecordLock.hide (_lock s1)) s1
  end.

Definition startRecording (s : State) : State :=
  let s1 := visibilityAnimate Appearance s in
  let s2 := assign_inField true s1 in
  inLifetime (set_sendEvents true) s2.

Definition recordUpdated (level : Z) (samples : Z) (s : State) : State :=
  let s1 := set_recordingSamples samples s in
  let s2 :=
    if (samples <? 0) || (samples >=? kMaxSamples kDefaultFrequency)
    then stop ((samples >? 0) && _inField s1) s1
    else s1 in
  emit (SendActionUpdates (mkSendActionUpdate RecordVoice 0)) s2.

(** The subscriber of [instance()->updated()]. *)
Definition captureUpdate (level samples : Z) (s : State) : State :=
  match captureUpdated (_recordingLifetime s) with
  | None => s
  | Some shown =>
      let s1 :=
        if negb shown && negb (animating (_showAnimation s))
        then assign_lockShowing true
               (inLifetime (set_captureUpdated (Some true)) s)
        else s in
      recordUpdated level samples s1
  end.

(** The error handler of the same subscription.  An error ends the
    subscription: no update is delivered after it. *)
Definition captureError (s : State) : State :=
  match captureUpdated (_recordingLifetime s) with
  | None => s
  | Some _ => stop false (inLifetime (set_captureUpdated None) s)
  end.

(** The subscriber of [_send->events()] set up by [startRecording]. *)
Definition sendButtonEvent (e : QEvent) (s : State) : State :=
  if sendEvents (_recordingLifetime s)
     && isTypeRecord s
     && negb (RecordLock.isLocked (_lock s))
  then
    match e with
    | MouseMove globalPos =>
        let localPos := mapFromGlobal (barPos (host s)) globalPos in
        let inField :=
          rectContains (barWidth (host s)) (barHeight (host s)) localPos in
        let s1 :=
          assign_inField
            (if inField then inField
             else RecordLevel.inCircle historyRecordLevelMaxRadius
                    (RecordLevel.create historyRecordLevelMaxRadius)
                    (mapFromGlobal (levelPos (host s)) globalPos))
            s in
        if animating (_showLockAnimation s1) then s1
        else computeAndSetLockProgress globalPos s1
    | MouseButtonRelease => stop (_inField s) s
    | _ => s
    end
  else s.

Definition levelClick (s : State) : State :=
  if levelClicks (_recordingLifetime s) then stop true s else s.

Definition levelActive (enter : bool) (s : State) : State :=
  if levelActives (_recordingLifetime s) then assign_inField enter s
  else s.

(** [*box] converted to [bool]: a [QPointer] is null once its object is
    gone. *)
Definition boxAlive (box : option nat) (s : State) : bool :=
  match box with
  | Some id => existsb (Nat.eqb id) (boxes s)
  | None => false
  end.

(** The [showBox] closure of [installClickOutsideFilter]. *)
Definition showBox (s : State) : State :=
  match clickOutsideFilter (_recordingLifetime s) with
  | None => s
  | Some box =>
      if boxAlive box s then s
      else
        let id := nextBox s in
        inLifetime (set_clickOutsideFilter (Some (Some id)))
          (set_boxes (id :: boxes s) (S id) s)
  end.

(** The [computeResult] closure; [box] is the filter's pointer. *)
Definition computeResult (box : option nat) (e : QEvent) (s : State)
  : FilterType * State :=
  if negb (RecordLock.isLocked (_lock s)) then (Continue, s)
  else
    let noBox := negb (boxAlive box s) in
    match e with
    | KeyPress key =>
        let isEsc := match key with Key_Escape => true | _ => false end in
        let isEnter :=
          match key with
          | Key_Enter | Key_Return => true
          | _ => false
          end in
        if noBox then
          if isEnter then (Cancel, stop true s)
          else if isEsc
                  && match _escFilter (host s) with
                     | Some r => r
                     | None => false
                     end
          then (Continue, s)
          else (ShowBox, s)
        else ((if isEsc || isEnter then Continue else ShowBox), s)
    | ContextMenu | Shortcut => (ShowBox, s)
    | MouseButtonPress =>
        ((if noBox && negb (_inField s) then ShowBox else Continue), s)
    | _ => (Continue, s)
    end.

(** The [filterCallback] closure installed on the application. *)
Definition filterCallback (e : QEvent) (s : State)
  : State * EventFilterResult :=
  match clickOutsideFilter (_recordingLifetime s) with
  | None => (s, FilterContinue)
  | Some box =>
      let '(r, s1) := computeResult box e s in
      match r with
      | ShowBox => (showBox s1, FilterCancel)
      | Continue => (s1, FilterContinue)
      | Cancel => (s1, FilterCancel)
      end
  end.

Definition closeBox (id : nat) (s : State) : State :=
  set_boxes (filter (fun b => negb (Nat.eqb id b)) (boxes s)) (nextBox s) s.

(** The [sure] callback of a box: [stop(false)], then [close()]. *)
Definition boxSure (id : nat) (s : State) : State :=
  if existsb (Nat.eqb id) (boxes s) then closeBox id (stop false s)
  else s.

(** The destructor; the members go with the object. *)
Definition destroy (s : State) : State :=
  let s1 := if isRecording s then stopRecording false s else s in
  set_alive false
    (set_showAnimation None
       (set_showLockAnimation None
          (set_recordingLifetime emptyLifetime s1))).

(** What can happen to the bar between two calls of its methods. *)
Inductive Event : Type :=
| ShowAnimationDone
| ShowLockAnimationDone (cursor : QPoint)
| SendButtonEvent (e : QEvent)
| CaptureUpdate (level samples : Z)
| CaptureError
| CaptureResult (data : Result)
| LevelClick
| LevelActive (enter : bool)
| AppEvent (e : QEvent)
| BoxSure (id : nat)
| BoxClosed (id : nat)
| CallStartRecording
| CallStop (send : bool)
| Destroy.

(** Every subscription and guarded callback dies with the object. *)
Definition step (s : State) (ev : Event) : State :=
  if negb (alive s) then s
  else
    match ev with
    | ShowAnimationDone => showAnimationDone s
    | ShowLockAnimationDone cursor => showLockAnimationDone cursor s
    | SendButtonEvent e => sendButtonEvent e s
    | CaptureUpdate level samples => captureUpdate level samples s
    | CaptureError => captureError s
    | CaptureResult data =>
        match resultPending s with
        | O => s
        | S n => resultCallback data (set_resultPending n s)
        end
    | LevelClick => levelClick s
    | LevelActive enter => levelActive enter s
    | AppEvent e => fst (filterCallback e s)
    | BoxSure id => boxSure id s
    | BoxClosed id => closeBox id s
    | CallStartRecording => startRecording s
    | CallStop send => stop send s
    | Destroy => destroy s
    end.

Definition run (s : State) (evs : list Event) : State :=
  fold_left step evs s.

End Controller.

(** The effects logged on the way from [before] to [after]. *)
Definition emitted (before after : State) : list Effect :=
  skipn (List.length (log before)) (log after).

Definition isSendVoiceRequest (e : Effect) : bool :=
  match e with SendVoiceRequests _ => true | _ => false end.

Definition isRecordingStopped (e : Effect) : bool :=
  match e with RecordingStateChanges false => true | _ => false end.

(** The events of the locked phase of a session: everything but the end
    of an animation, a new [startRecording] and the destructor. *)
Definition lockedPhaseEvent (ev : Event) : bool :=
  match ev with
  | ShowAnimationDone | ShowLockAnimationDone _
  | CallStartRecording | Destroy => false
  | _ => true
  end.

(** In the locked phase the click-outside filter is installed, and the
    confirmation boxes that exist are at most the one its pointer refers
    to. *)
Definition onePrompt (s : State) : Prop :=
  alive s = true
  /\ RecordLock.isLocked (_lock s) = true
  /\ exists box,
       clickOutsideFilter (_recordingLifetime s) = Some box
       /\ (boxes s = [] \/ exists id, boxes s = [id] /\ box = Some id).

(** A host used to run the model on concrete sessions: a bar of 400 by
    50 at (0, 500), the level button at (340, 485), a lock widget 80
    high, the backend sampling at 48 kHz and a level radius of 40. *)
Definition sampleHost : Host :=
  {| barPos := mkQPoint 0 500; barWidth := 400; barHeight := 50;
     levelPos := mkQPoint 340 485; lockHeight := 80;
     sendTypeRecord := true; captureAvailable := true;
     _escFilter := None |}.

Definition sampleFrequency : Z := 48000.
Definition sampleRadius : Z := 40.

(** A session that records with the pointer on the bar: recording was
    started, the bar has appeared, the first capture update has come and
    the lock widget has slid in. *)
Definition sampleRecording : State :=
  run sampleFrequency sampleRadius (initial sampleHost)
    [CallStartRecording; ShowAnimationDone; CaptureUpdate 0 4800;
     ShowLockAnimationDone (mkQPoint 370 520)].

(** The same session after the pointer has left the bar sideways. *)
Definition sampleOutside : State :=
  run sampleFrequency sampleRadius sampleRecording
    [SendButtonEvent (MouseMove (mkQPoint 600 520))].

(** The same session after the pointer went up by the lock's height. *)
Definition sampleLocked : State :=
  run sampleFrequency sampleRadius sampleRecording
    [SendButtonEvent (MouseMove (mkQPoint 370 420))].

End VoiceRecordBar.

(** ** Further parts of the widgets *)

(** What the bar does to its lock widget. *)
Inductive LockOp : Type :=
| LockShow
| LockHide
| LockRequest (progress : float64).

Definition applyLockOp (l : RecordLock.t) (op : LockOp) : RecordLock.t :=
  match op with
  | LockShow => RecordLock.show l
  | LockHide => RecordLock.hide l
  | LockRequest p => fst (RecordLock.requestPaintProgress p l)
  end.

Definition applyLockOps (l : RecordLock.t) (ops : list LockOp)
  : RecordLock.t :=
  fold_left applyLockOp ops l.

(** Counting the effects of one kind in a log. *)
Definition countEffects (p : VoiceRecordBar.Effect -> bool)
    (l : list VoiceRecordBar.Effect) : nat :=
  List.length (filter p l).

Definition isStopWithResult (e : VoiceRecordBar.Effect) : bool :=
  match e with VoiceRecordBar.CaptureStopWithResult => true | _ => false end.

Definition isLockShown (e : VoiceRecordBar.Effect) : bool :=
  match e with VoiceRecordBar.LockShowStarts true => true | _ => false end.

(** A sent voice carries bytes. *)
Definition carriesBytes (e : VoiceRecordBar.Effect) : Prop :=
  match e with
  | VoiceRecordBar.SendVoiceRequests v => VoiceRecordBar.bytes v <> []
  | _ => True
  end.

(** The events that make [stop(true)] be called. *)
Definition asksToSend (s : VoiceRecordBar.State) (kDefaultFrequency : Z)
    (ev : VoiceRecordBar.Event) : Prop :=
  match ev with
  | VoiceRecordBar.SendButtonEvent VoiceRecordBar.MouseButtonRelease =>
      VoiceRecordBar._inField s = true
  | VoiceRecordBar.CaptureUpdate _ samples =>
      kMaxSamples kDefaultFrequency <= samples
      /\ VoiceRecordBar._inField s = true
  | VoiceRecordBar.LevelClick => True
  | VoiceRecordBar.AppEvent (VoiceRecordBar.KeyPress VoiceRecordBar.Key_Enter)
  | VoiceRecordBar.AppEvent (VoiceRecordBar.KeyPress VoiceRecordBar.Key_Return) =>
      RecordLock.isLocked (VoiceRecordBar._lock s) = true
  | VoiceRecordBar.CallStop send => send = true
  | _ => False
  end.

(** The bar is subscribed to the backend's updates only while
    [isRecording()]. *)
Definition subscribedWhileRecording (s : VoiceRecordBar.State) : Prop :=
  VoiceRecordBar.alive s = true ->
  VoiceRecordBar.captureUpdated (VoiceRecordBar._recordingLifetime s) <> None ->
  VoiceRecordBar._recording s = true.

(** A session whose show animation is still running, the pointer having
    left the bar sideways: recording has not started yet. *)
Definition sampleShowing : VoiceRecordBar.State :=
  VoiceRecordBar.run VoiceRecordBar.sampleFrequency
    VoiceRecordBar.sampleRadius
    (VoiceRecordBar.initial VoiceRecordBar.sampleHost)
    [VoiceRecordBar.CallStartRecording;
     VoiceRecordBar.SendButtonEvent
       (VoiceRecordBar.MouseMove (mkQPoint 600 520))].

(** * Properties *)

(** ** Arithmetic of the embedding *)

Lemma Int32_wrap_small (z : Z) : Int32.in_range z -> Int32.wrap z = z.
Proof.
  unfold Int32.in_range, Int32.min_int, Int32.max_int, Int32.wrap.
  intros H. rewrite Z.mod_small; lia.
Qed.

Lemma int_of_float64_ratio (k a b : Z) :
  0 < b ->
  int_of_float64
    (float64_of_int k * (float64_of_int a / float64_of_int b))%Q
  = Z.quot (k * a) b.
Proof.
  intros Hb. destruct b as [|p|p]; try lia.
  unfold int_of_float64, float64_of_int, Qdiv, Qmult, Qinv, inject_Z.
  cbn [Qnum Qden]. f_equal; lia.
Qed.

Lemma voiceDurationTenths_quot (f samples : Z) :
  0 < f -> voiceDurationTenths f samples = Z.quot (kPrecision * samples) f.
Proof. intros Hf. apply int_of_float64_ratio; assumption. Qed.

Lemma QString_number_digit (d : Z) :
  0 <= d <= 9 -> QString_number d = String (digit_char d) "".
Proof.
  intros H.
  assert (E : d = 0 \/ d = 1 \/ d = 2 \/ d = 3 \/ d = 4 \/ d = 5
              \/ d = 6 \/ d = 7 \/ d = 8 \/ d = 9) by lia.
  repeat (destruct E as [E | E]; [subst d; reflexivity | ]).
  subst d; reflexivity.
Qed.

(** ** The duration text *)

Section FormatVoiceDurationFacts.

Variable f : Z.
Variable fdt : Z -> string.
Variable dp : ascii.
Hypothesis f_pos : 0 < f.

Lemma FormatVoiceDuration_zero :
  FormatVoiceDuration f fdt dp 0 = (fdt 0 ++ String dp "0")%string.
Proof.
  unfold FormatVoiceDuration. rewrite voiceDurationTenths_quot by assumption.
  unfold kPrecision. rewrite Z.mul_0_r, Z.quot_0_l by lia. reflexivity.
Qed.

Lemma FormatVoiceDuration_one_second :
  FormatVoiceDuration f fdt dp f = (fdt 1 ++ String dp "0")%string.
Proof.
  unfold FormatVoiceDuration. rewrite voiceDurationTenths_quot by assumption.
  unfold kPrecision. rewrite Z.quot_mul by lia. reflexivity.
Qed.

Lemma FormatVoiceDuration_tenths (samples : Z) :
  0 <= samples ->
  FormatVoiceDuration f fdt dp samples
  = (fdt (samples / f)
     ++ String dp (String (digit_char (((10 * samples) / f) mod 10)) ""))%string.
Proof.
  intros Hs. unfold FormatVoiceDuration.
  rewrite voiceDurationTenths_quot by assumption. unfold kPrecision.
  assert (Ht : 0 <= (10 * samples) / f) by (apply Z.div_pos; lia).
  rewrite (Z.quot_div_nonneg (10 * samples) f) by lia.
  rewrite Z.quot_div_nonneg, Z.rem_mod_nonneg by lia.
  rewrite Z.div_div by lia.
  replace (f * 10) with (10 * f) by lia.
  rewrite Z.div_mul_cancel_l by lia.
  rewrite QString_number_digit; [reflexivity | ].
  pose proof (Z.mod_pos_bound ((10 * samples) / f) 10 ltac:(lia)). lia.
Qed.

End FormatVoiceDurationFacts.

(** C6 (amended).  With a sample rate of at least ten, [FormatVoiceDuration]
    maps 0 samples to the text of zero seconds, the locale's decimal point
    and the digit 0, and one second's worth of samples to the text of one
    second, the decimal point and 0; where the decimal point of the locale
    is a dot and the seconds print as minutes:seconds these are 0:00.0 and
    0:01.0.  For every non-negative sample count the [int] holding the
    tenths is the floor of ten times the seconds, it fits an [int], and the
    text ends with the decimal point and exactly one digit, the tenths
    modulo ten. *)
Theorem FormatVoiceDuration_spec
    (f : Z) (fdt : Z -> string) (dp : ascii) (samples : Z) :
  10 <= f ->
  0 <= samples <= Int32.max_int ->
  FormatVoiceDuration f fdt dp 0 = (fdt 0 ++ String dp "0")%string
  /\ FormatVoiceDuration f fdt dp f = (fdt 1 ++ String dp "0")%string
  /\ FormatVoiceDuration f FormatDurationText "." 0 = "0:00.0"%string
  /\ FormatVoiceDuration f FormatDurationText "." f = "0:01.0"%string
  /\ voiceDurationTenths f samples = (10 * samples) / f
  /\ Int32.in_range ((10 * samples) / f)
  /\ 0 <= ((10 * samples) / f) mod 10 <= 9
  /\ FormatVoiceDuration f fdt dp samples
     = (fdt (samples / f)
        ++ String dp
             (String (digit_char (((10 * samples) / f) mod 10)) ""))%string.
Proof.
  intros Hf Hs.
  assert (Hpos : 0 < f) by lia.
  assert (Hmod : 0 <= ((10 * samples) / f) mod 10 <= 9).
  { pose proof (Z.mod_pos_bound ((10 * samples) / f) 10 ltac:(lia)). lia. }
  assert (Hrange : Int32.in_range ((10 * samples) / f)).
  { unfold Int32.in_range, Int32.min_int, Int32.max_int in *.
    pose proof (Z.div_pos (10 * samples) f ltac:(lia) Hpos).
    assert ((10 * samples) / f <= samples)
      by (apply Z.div_le_upper_bound; nia).
    lia. }
  split; [apply FormatVoiceDuration_zero; assumption | ].
  split; [apply FormatVoiceDuration_one_second; assumption | ].
  split; [rewrite FormatVoiceDuration_zero by assumption; reflexivity | ].
  split;
    [rewrite FormatVoiceDuration_one_second by assumption; reflexivity | ].
  split.
  { rewrite voiceDurationTenths_quot by assumption. unfold kPrecision.
    apply Z.quot_div_nonneg; lia. }
  split; [exact Hrange | ].
  split; [exact Hmod | ].
  apply FormatVoiceDuration_tenths; lia.
Qed.

Lemma FormatVoiceDuration_spec_witness :
  FormatVoiceDuration 48000 FormatDurationText "." 123456 = "0:02.5"%string.
Proof.
  pose proof (FormatVoiceDuration_spec 48000 FormatDurationText "." 123456
                ltac:(lia) ltac:(unfold Int32.max_int; lia)) as H.
  destruct H as (_ & _ & _ & _ & _ & _ & _ & H).
  rewrite H. reflexivity.
Defined.

(** C6, as stated, fails where the locale's decimal point is a comma. *)
Lemma FormatVoiceDuration_locale_comma :
  FormatVoiceDuration 48000 FormatDurationText "," 0 <> "0:00.0"%string.
Proof. vm_compute. discriminate. Qed.

(** At 48 kHz the binary64 computation of the tenths gives what the
    rational model gives: at no samples, at one second, at the longest
    recording, and around each of the first thousand multiples of a tenth
    of a second. *)
Lemma Binary64_agrees_48kHz :
  Binary64.agrees 48000 0 = true
  /\ Binary64.agrees 48000 48000 = true
  /\ Binary64.agrees 48000 (kMaxSamples 48000) = true
  /\ Binary64.agreesAtTenths 48000 1000 = true.
Proof. vm_compute. repeat split. Qed.

(** ** The level button's hit test *)

(** C9.  For a radius whose doubled square fits an [int] and a point whose
    offsets from the centre are computable in [int], [inCircle] is the
    Euclidean test: the bounding box rejection and the Manhattan shortcut
    agree with the comparison of the squared distance with the squared
    radius.  The centre of the button is [(radius, radius)]. *)
Theorem inCircle_withinRadius (r x y : Z) :
  0 <= r <= 32767 ->
  Int32.min_int + r < x <= Int32.max_int ->
  Int32.min_int + r < y <= Int32.max_int ->
  RecordLevel._center (RecordLevel.create r) = r
  /\ RecordLevel.inCircle r (RecordLevel.create r) (mkQPoint x y)
     = RecordLevel.withinRadius r r (mkQPoint x y).
Proof.
  unfold Int32.min_int, Int32.max_int. intros Hr Hx Hy.
  assert (Hc : RecordLevel._center (RecordLevel.create r) = r).
  { unfold RecordLevel.create, RecordLevel._center, Int32.mul.
    rewrite Int32_wrap_small
      by (unfold Int32.in_range, Int32.min_int, Int32.max_int; lia).
    apply Z.quot_mul; lia. }
  split; [exact Hc | ].
  unfold RecordLevel.inCircle, RecordLevel.withinRadius.
  rewrite Hc. cbn [px py].
  unfold Int32.abs, Int32.sub, Int32.add, Int32.mul.
  rewrite (Int32_wrap_small (x - r))
    by (unfold Int32.in_range, Int32.min_int, Int32.max_int; lia).
  rewrite (Int32_wrap_small (y - r))
    by (unfold Int32.in_range, Int32.min_int, Int32.max_int; lia).
  rewrite (Int32_wrap_small (Z.abs (x - r)))
    by (unfold Int32.in_range, Int32.min_int, Int32.max_int; lia).
  rewrite (Int32_wrap_small (Z.abs (y - r)))
    by (unfold Int32.in_range, Int32.min_int, Int32.max_int; lia).
  rewrite <- (Z.abs_square (x - r)), <- (Z.abs_square (y - r)).
  set (dx := Z.abs (x - r)). set (dy := Z.abs (y - r)).
  assert (Hdx : 0 <= dx) by apply Z.abs_nonneg.
  assert (Hdy : 0 <= dy) by apply Z.abs_nonneg.
  destruct (Z.gtb_spec dx r) as [Gx | Gx].
  { symmetry. apply Z.leb_gt. nia. }
  destruct (Z.gtb_spec dy r) as [Gy | Gy].
  { symmetry. apply Z.leb_gt. nia. }
  rewrite (Int32_wrap_small (dx + dy))
    by (unfold Int32.in_range, Int32.min_int, Int32.max_int; lia).
  destruct (Z.leb_spec (dx + dy) r) as [M | M].
  { symmetry. apply Z.leb_le. nia. }
  rewrite (Int32_wrap_small (dx * dx))
    by (unfold Int32.in_range, Int32.min_int, Int32.max_int; nia).
  rewrite (Int32_wrap_small (dy * dy))
    by (unfold Int32.in_range, Int32.min_int, Int32.max_int; nia).
  rewrite (Int32_wrap_small (r * r))
    by (unfold Int32.in_range, Int32.min_int, Int32.max_int; nia).
  rewrite (Int32_wrap_small (dx * dx + dy * dy))
    by (unfold Int32.in_range, Int32.min_int, Int32.max_int; nia).
  reflexivity.
Qed.

Lemma inCircle_withinRadius_witness :
  RecordLevel.inCircle 10 (RecordLevel.create 10) (mkQPoint 2 4)
  = RecordLevel.withinRadius 10 10 (mkQPoint 2 4).
Proof.
  apply (inCircle_withinRadius 10 2 4);
    unfold Int32.min_int, Int32.max_int; lia.
Defined.

(** ** The lock widget *)

Section RecordLockFacts.

Import RecordLock.

Lemma requestPaintProgress_locked (p : float64) (l : t) :
  isLocked l = true -> requestPaintProgress p l = (l, false).
Proof.
  intros H. unfold requestPaintProgress. rewrite H, orb_true_r. reflexivity.
Qed.

(** From an unlocked widget, [locks()] fires exactly when the call
    leaves the widget locked. *)
Lemma requestPaintProgress_unlocked (p : float64) (l : t) :
  isLocked l = false ->
  snd (requestPaintProgress p l) = isLocked (fst (requestPaintProgress p l)).
Proof.
  intros H. unfold requestPaintProgress, assignProgress. rewrite H.
  destruct (isHidden l); cbn [orb fst snd].
  - symmetry; exact H.
  - destruct (Qeq_bool (_progress l) p); cbn [fst snd andb].
    + symmetry; exact H.
    + reflexivity.
Qed.

Lemma requestPaintProgressAll_locked (ps : list float64) (l : t) :
  isLocked l = true -> requestPaintProgressAll ps l = (l, 0%nat).
Proof.
  intros H. induction ps as [|p ps IH]; cbn [requestPaintProgressAll].
  - reflexivity.
  - rewrite requestPaintProgress_locked by exact H. rewrite IH. reflexivity.
Qed.

Lemma requestPaintProgressAll_app (ps qs : list float64) (l : t) :
  requestPaintProgressAll (ps ++ qs) l
  = let '(l1, n) := requestPaintProgressAll ps l in
    let '(l2, m) := requestPaintProgressAll qs l1 in
    (l2, (n + m)%nat).
Proof.
  revert l. induction ps as [|p ps IH]; intros l; cbn [app requestPaintProgressAll].
  - destruct (requestPaintProgressAll qs l); reflexivity.
  - destruct (requestPaintProgress p l) as [l1 fired].
    rewrite IH.
    destruct (requestPaintProgressAll ps l1) as [l2 n].
    destruct (requestPaintProgressAll qs l2) as [l3 m].
    f_equal. lia.
Qed.

(** The number of [locks()] events of a run that starts unlocked. *)
Lemma requestPaintProgressAll_count (ps : list float64) (l : t) :
  isLocked l = false ->
  snd (requestPaintProgressAll ps l)
  = if isLocked (fst (requestPaintProgressAll ps l)) then 1%nat else 0%nat.
Proof.
  revert l. induction ps as [|p ps IH]; intros l H; cbn [requestPaintProgressAll].
  - cbn [fst snd]. rewrite H. reflexivity.
  - pose proof (requestPaintProgress_unlocked p l H) as Hstep.
    destruct (requestPaintProgress p l) as [l1 fired]. cbn [fst snd] in Hstep.
    subst fired.
    destruct (isLocked l1) eqn:E.
    + rewrite requestPaintProgressAll_locked by exact E.
      cbn [fst snd]. rewrite E. reflexivity.
    + specialize (IH l1 E).
      destruct (requestPaintProgressAll ps l1) as [l2 n].
      cbn [fst snd] in *. rewrite IH. reflexivity.
Qed.

End RecordLockFacts.

(** C2.  In a session of the lock widget that starts unlocked, once the
    calls [ps] of [requestPaintProgress] have left it locked, the stored
    progress is 1, any further call leaves the widget as it is, and over
    the whole session [ps ++ qs] the [locks()] event has fired exactly
    once. *)
Theorem RecordLock_locked_once
    (l : RecordLock.t) (ps qs : list float64) (p : float64) :
  RecordLock.isLocked l = false ->
  RecordLock.isLocked (fst (RecordLock.requestPaintProgressAll ps l)) = true ->
  let locked := fst (RecordLock.requestPaintProgressAll ps l) in
  (RecordLock._progress locked == 1)%Q
  /\ RecordLock.requestPaintProgress p locked = (locked, false)
  /\ RecordLock.requestPaintProgressAll (ps ++ qs) l = (locked, 1%nat).
Proof.
  intros Hstart Hlocked locked. subst locked.
  split; [apply Qeq_bool_iff; exact Hlocked | ].
  split; [apply requestPaintProgress_locked; exact Hlocked | ].
  rewrite requestPaintProgressAll_app.
  pose proof (requestPaintProgressAll_count ps l Hstart) as Hcount.
  rewrite Hlocked in Hcount.
  destruct (RecordLock.requestPaintProgressAll ps l) as [l1 n].
  cbn [fst snd] in *. subst n.
  rewrite requestPaintProgressAll_locked by exact Hlocked. reflexivity.
Qed.

Lemma RecordLock_locked_once_witness :
  RecordLock.requestPaintProgressAll
    ([(1 # 2)%Q; 1%Q] ++ [(1 # 3)%Q; 0%Q])
    (RecordLock.show RecordLock.initial)
  = (RecordLock.mk false 1%Q, 1%nat).
Proof.
  apply (RecordLock_locked_once
           (RecordLock.show RecordLock.initial)
           [(1 # 2)%Q; 1%Q] [(1 # 3)%Q; 0%Q] 0%Q);
    reflexivity.
Defined.

(** ** The session controller *)

Import VoiceRecordBar.

(** Case analysis on whatever a handler branches on. *)
Ltac innermost x :=
  lazymatch x with
  | context [match _ with _ => _ end] => fail
  | _ => idtac
  end.

Ltac branch :=
  match goal with
  | |- context [match ?x with _ => _ end] => innermost x; destruct x
  end.

Ltac handlers :=
  unfold step, showAnimationDone, showLockAnimationDone, sendButtonEvent,
    captureUpdate, captureError, levelClick, levelActive, filterCallback,
    computeResult, showBox, boxSure, closeBox, destroy, startRecording,
    recordUpdated, appearanceCallback, disappearanceCallback, resultCallback,
    computeAndSetLockProgress, onLocks, installClickOutsideFilter,
    stopRecording, stop, visibilityAnimate, assign_lockShowing,
    assign_recording, assign_inField, inLifetime.

Section ControllerFacts.

Variable f : Z.  (* kDefaultFrequency *)
Variable r : Z.  (* st::historyRecordLevelMaxRadius *)

(** No handler touches what the bar reads from its surroundings. *)
Lemma host_step (s : State) (ev : Event) : host (step f r s ev) = host s.
Proof.
  destruct ev; handlers; repeat branch; reflexivity.
Qed.

Lemma host_run (evs : list Event) (s : State) :
  host (run f r s evs) = host s.
Proof.
  revert s. induction evs as [|ev evs IH]; intros s; cbn [run fold_left].
  - reflexivity.
  - unfold run in IH. rewrite IH. apply host_step.
Qed.

End ControllerFacts.

(** *** The lock progress *)

Lemma clamp_unit (v : float64) : (0 <= clamp v 0 1 <= 1)%Q.
Proof.
  unfold clamp, flt.
  destruct (Qle_bool 0 v) eqn:E0; cbn [negb].
  - destruct (Qle_bool v 1) eqn:E1; cbn [negb].
    + split; apply Qle_bool_iff; assumption.
    + split; discriminate.
  - split; discriminate.
Qed.

(** The quotient of [computeAndSetLockProgress] for a lock of height
    [h > 0] and a local ordinate [y]. *)
Lemma lock_ratio (y h : Z) :
  0 < h ->
  (float64_of_int y / float64_of_int (0 - h) == (- y) # (Z.to_pos h))%Q.
Proof.
  intros Hh. destruct h as [|p|p]; try lia.
  unfold float64_of_int, inject_Z, Qdiv, Qmult, Qinv, Qeq.
  cbn [Qnum Qden Z.sub Z.opp Z.add Z.to_pos]. lia.
Qed.

Lemma clamp_ratio_cases (y h : Z) :
  0 < h ->
  let v := clamp (float64_of_int y / float64_of_int (0 - h))%Q 0%Q 1%Q in
  (0 <= y -> (v == 0)%Q)
  /\ (y <= - h -> (v == 1)%Q)
  /\ (- h < y < 0 -> (v == (- y) # (Z.to_pos h))%Q).
Proof.
  intros Hh v. subst v.
  pose proof (lock_ratio y h Hh) as E.
  set (q := (float64_of_int y / float64_of_int (0 - h))%Q) in *.
  assert (Hp : Z.pos (Z.to_pos h) = h) by (apply Z2Pos.id; lia).
  unfold clamp, flt.
  destruct (Qle_bool 0 q) eqn:E0; cbn [negb];
    [apply Qle_bool_iff in E0 | apply not_true_iff_false in E0;
                                rewrite Qle_bool_iff in E0];
    (destruct (Qle_bool q 1) eqn:E1; cbn [negb];
     [apply Qle_bool_iff in E1 | apply not_true_iff_false in E1;
                                 rewrite Qle_bool_iff in E1]);
    rewrite E in E0, E1; unfold Qle, Qeq in *; cbn [Qnum Qden] in *;
    rewrite ?E; unfold Qeq; cbn [Qnum Qden];
    repeat split; intros; try rewrite Hp in *; try lia; nia.
Qed.

Lemma lockProgress_host (s1 s2 : State) (p1 p2 : QPoint) :
  host s1 = host s2 -> py p1 = py p2 ->
  lockProgress s1 p1 = lockProgress s2 p2.
Proof.
  intros Hh Hp. unfold lockProgress, mapFromGlobal. cbn [py].
  rewrite Hh, Hp. reflexivity.
Qed.

(** C3.  With a lock widget of positive height, the progress that
    [computeAndSetLockProgress] hands to [RecordLock::requestPaintProgress]
    lies in [0, 1].  It is the clamped quotient of the pointer's ordinate
    local to the bar by [0 - height]: 0 at or below the top of the bar, 1 at
    or above one lock height over it, and the distance over the top divided
    by the height in between.  It depends on nothing but that ordinate: any
    history of events [evs] before the call and any abscissa give the same
    value. *)
Theorem lockProgress_in_unit_interval
    (f r : Z) (s : State) (evs : list Event) (p q : QPoint) :
  0 < lockHeight (host s) ->
  let y := py p - py (barPos (host s)) in
  let h := lockHeight (host s) in
  let v := lockProgress s p in
  (0 <= v <= 1)%Q
  /\ _lock (computeAndSetLockProgress p s)
     = fst (RecordLock.requestPaintProgress v (_lock s))
  /\ v = clamp (float64_of_int y / float64_of_int (0 - h))%Q 0%Q 1%Q
  /\ (0 <= y -> (v == 0)%Q)
  /\ (y <= - h -> (v == 1)%Q)
  /\ (- h < y < 0 -> (v == (- y) # (Z.to_pos h))%Q)
  /\ (py q = py p -> lockProgress (run f r s evs) q = v).
Proof.
  intros Hh y h v.
  split; [apply clamp_unit | ].
  split.
  { unfold computeAndSetLockProgress. fold v.
    destruct (RecordLock.requestPaintProgress v (_lock s)) as [l locked].
    destruct locked; reflexivity. }
  split; [reflexivity | ].
  pose proof (clamp_ratio_cases y h Hh) as (H0 & H1 & H2).
  split; [exact H0 | ].
  split; [exact H1 | ].
  split; [exact H2 | ].
  intros Hq. apply lockProgress_host; [apply host_run | exact Hq].
Qed.

Lemma lockProgress_in_unit_interval_witness :
  (lockProgress sampleRecording (mkQPoint 370 480) == 1 # 4)%Q.
Proof.
  pose proof (lockProgress_in_unit_interval sampleFrequency sampleRadius
                sampleRecording [] (mkQPoint 370 480) (mkQPoint 0 480)
                ltac:(reflexivity)) as H.
  destruct H as (_ & _ & _ & _ & _ & H & _).
  rewrite H; [reflexivity | split; reflexivity].
Defined.

(** *** Stopping a session *)

Lemma skipn_log (l x : list Effect) : skipn (List.length l) (l ++ x) = x.
Proof. induction l as [|a l IH]; [reflexivity | exact IH]. Qed.

Lemma emitted_app (s1 s2 : State) (x : list Effect) :
  log s2 = (log s1 ++ x)%list -> emitted s1 s2 = x.
Proof. intros H. unfold emitted. rewrite H. apply skipn_log. Qed.

(** What [stop] does at once: the lock slides away and the hide animation
    carries the callback that will end the session. *)
Lemma stop_now (send : bool) (s : State) :
  _showAnimation (stop send s) = Some (Disappearance send)
  /\ log (stop send s)
     = (log s ++ (if _lockShowing s then [LockShowStarts false] else []))%list
  /\ _recording (stop send s) = _recording s
  /\ resultPending (stop send s) = resultPending s
  /\ alive (stop send s) = alive s.
Proof.
  unfold stop, visibilityAnimate, assign_lockShowing.
  destruct (_lockShowing s); cbn; rewrite ?app_nil_r; repeat split.
Qed.

(** What the last frame of the hide animation does. *)
Lemma showAnimationDone_disappearance (send : bool) (s : State) :
  _showAnimation s = Some (Disappearance send) ->
  let s' := showAnimationDone s in
  log s'
  = (log s
     ++ (if _recording s then [RecordingStateChanges false] else [])
     ++ [if send then CaptureStopWithResult else CaptureStop;
         SendActionUpdates (mkSendActionUpdate RecordVoice (-1))])%list
  /\ resultPending s'
     = (if send then S (resultPending s) else resultPending s)
  /\ _recording s' = false
  /\ _inField s' = false
  /\ _recordingSamples s' = 0
  /\ _recordingLifetime s' = emptyLifetime
  /\ _showAnimation s' = None
  /\ alive s' = alive s.
Proof.
  intros H. unfold showAnimationDone. rewrite H.
  unfold disappearanceCallback, stopRecording, assign_recording,
    assign_inField.
  destruct (_recording s) eqn:R, send; cbn; rewrite ?R; cbn;
    rewrite <- ?app_assoc; repeat split; exact R.
Qed.

(** [stop(send)] followed by the end of its animation. *)
Lemma stop_done (send : bool) (s : State) :
  let s' := showAnimationDone (stop send s) in
  emitted s s'
  = ((if _lockShowing s then [LockShowStarts false] else [])
     ++ (if _recording s then [RecordingStateChanges false] else [])
     ++ [if send then CaptureStopWithResult else CaptureStop;
         SendActionUpdates (mkSendActionUpdate RecordVoice (-1))])%list
  /\ resultPending s'
     = (if send then S (resultPending s) else resultPending s)
  /\ _recording s' = false
  /\ _inField s' = false
  /\ _recordingSamples s' = 0
  /\ _recordingLifetime s' = emptyLifetime
  /\ alive s' = alive s.
Proof.
  destruct (stop_now send s) as (Ha & Hl & Hr & Hp & Hv).
  destruct (showAnimationDone_disappearance send (stop send s) Ha)
    as (Dl & Dp & Dr & Di & Ds & Dt & _ & Dv).
  cbn zeta. rewrite Dp, Hp, Dv, Hv.
  repeat split; try assumption.
  apply emitted_app. rewrite Dl, Hl, Hr, <- app_assoc. reflexivity.
Qed.

(** C1 (amended).  [kMaxSamples] is 100 minutes of samples.  When the
    sample count of an update is negative or at least [kMaxSamples],
    [recordUpdated] calls [stop]; for a count of at least [kMaxSamples]
    the stop sends exactly when [_inField] holds, and for a negative count
    it does not send.  Sending shows at the end of the hide animation, where
    the backend is stopped with a result callback, and not sending as a
    plain stop. *)
Theorem recordUpdated_forced_stop (f level samples : Z) (s : State) :
  0 < f ->
  samples < 0 \/ kMaxSamples f <= samples ->
  let s1 := recordUpdated f level samples s in
  let s2 := showAnimationDone s1 in
  kMaxSamples f = f * (100 * 60)
  /\ _showAnimation s1 = Some (Disappearance ((samples >? 0) && _inField s))
  /\ (kMaxSamples f <= samples ->
      _showAnimation s1 = Some (Disappearance (_inField s)))
  /\ (samples < 0 -> _showAnimation s1 = Some (Disappearance false))
  /\ (In CaptureStopWithResult (emitted s1 s2)
      <-> kMaxSamples f <= samples /\ _inField s = true)
  /\ (In CaptureStop (emitted s1 s2)
      <-> samples < 0 \/ _inField s = false).
Proof.
  intros Hf Hs s1 s2.
  assert (Hk : 0 < kMaxSamples f)
    by (unfold kMaxSamples, kAudioVoiceMaxLength; lia).
  assert (Hanim : _showAnimation s1
                  = Some (Disappearance ((samples >? 0) && _inField s))).
  { subst s1. unfold recordUpdated.
    replace ((samples <? 0) || (samples >=? kMaxSamples f)) with true
      by (symmetry; apply orb_true_iff; destruct Hs;
          [left; apply Z.ltb_lt | right; apply Z.geb_le]; lia).
    cbn. reflexivity. }
  split; [reflexivity | ].
  split; [exact Hanim | ].
  split.
  { intros H. rewrite Hanim.
    replace (samples >? 0) with true
      by (symmetry; rewrite Z.gtb_ltb; apply Z.ltb_lt; lia).
    reflexivity. }
  split.
  { intros H. rewrite Hanim.
    replace (samples >? 0) with false
      by (symmetry; rewrite Z.gtb_ltb; apply Z.ltb_ge; lia).
    reflexivity. }
  destruct (showAnimationDone_disappearance _ s1 Hanim) as (Dl & _).
  fold s2 in Dl. rewrite (emitted_app _ _ _ Dl).
  destruct (Z.gtb_spec samples 0) as [G | G]; cbn [andb].
  - destruct (_inField s), (_recording s1); cbn; split; split;
      intuition (try discriminate; try lia).
  - destruct (_inField s), (_recording s1); cbn; split; split;
      intuition (try discriminate; try lia).
Qed.

Lemma recordUpdated_forced_stop_witness :
  _showAnimation
    (recordUpdated sampleFrequency 0 (kMaxSamples sampleFrequency)
       sampleRecording)
  = Some (Disappearance (_inField sampleRecording)).
Proof.
  destruct (recordUpdated_forced_stop sampleFrequency 0
              (kMaxSamples sampleFrequency) sampleRecording
              ltac:(reflexivity) (or_intror (Z.le_refl _)))
    as (_ & _ & H & _).
  exact (H (Z.le_refl _)).
Defined.

(** C1, as stated, fails for a negative sample count with the pointer in
    the field: the forced stop does not send. *)
Lemma recordUpdated_negative_in_field :
  let s1 := recordUpdated sampleFrequency 0 (-1) sampleRecording in
  _inField sampleRecording = true
  /\ _showAnimation s1 <> Some (Disappearance (_inField sampleRecording))
  /\ emitted s1 (showAnimationDone s1)
     = [RecordingStateChanges false; CaptureStop;
        SendActionUpdates (mkSendActionUpdate RecordVoice (-1))].
Proof.
  cbv zeta. split; [reflexivity | ]. split; [ | reflexivity].
  vm_compute. discriminate.
Qed.

(** C4 (amended).  While the send button is listened to and the lock is
    open, a release of the pointer with [_inField] false calls
    [stop(false)]; when the hide animation ends the backend is stopped
    without a result callback and no voice is sent: nothing is handed to
    the backend that could send one later.  The recording state changes to
    false, and notifies, exactly when the bar was recording; a release
    before the recording has started gives no notification. *)
Theorem release_outside_discards (f r : Z) (s : State) :
  alive s = true ->
  sendEvents (_recordingLifetime s) = true ->
  isTypeRecord s = true ->
  RecordLock.isLocked (_lock s) = false ->
  _inField s = false ->
  let s1 := step f r s (SendButtonEvent MouseButtonRelease) in
  let s2 := step f r s1 ShowAnimationDone in
  s1 = stop false s
  /\ emitted s s2
     = ((if _lockShowing s then [LockShowStarts false] else [])
        ++ (if _recording s then [RecordingStateChanges false] else [])
        ++ [CaptureStop;
            SendActionUpdates (mkSendActionUpdate RecordVoice (-1))])%list
  /\ (In (RecordingStateChanges false) (emitted s s2)
      <-> _recording s = true)
  /\ (forall v, ~ In (SendVoiceRequests v) (emitted s s2))
  /\ resultPending s2 = resultPending s
  /\ _recording s2 = false
  /\ _recordingLifetime s2 = emptyLifetime.
Proof.
  intros Ha Hsub Ht Hl Hf s1 s2.
  assert (E1 : s1 = stop false s).
  { subst s1. unfold step, sendButtonEvent.
    rewrite Ha, Hsub, Ht, Hl, Hf. reflexivity. }
  assert (E2 : s2 = showAnimationDone (stop false s)).
  { subst s2. rewrite E1. unfold step.
    destruct (stop_now false s) as (_ & _ & _ & _ & Hv).
    rewrite Hv, Ha. reflexivity. }
  destruct (stop_done false s) as (De & Dp & Dr & _ & _ & Dt & _).
  rewrite <- E2 in De, Dp, Dr, Dt.
  split; [exact E1 | ].
  split; [exact De | ].
  split.
  { rewrite De.
    destruct (_lockShowing s), (_recording s); cbn;
      split; intros H; try reflexivity; try discriminate H;
      intuition discriminate. }
  split.
  { intros v. rewrite De.
    destruct (_lockShowing s), (_recording s); cbn;
      intuition discriminate. }
  split; [exact Dp | ].
  split; [exact Dr | exact Dt].
Qed.

Lemma release_outside_discards_witness :
  emitted sampleOutside
    (step sampleFrequency sampleRadius
       (step sampleFrequency sampleRadius sampleOutside
          (SendButtonEvent MouseButtonRelease))
       ShowAnimationDone)
  = [LockShowStarts false; RecordingStateChanges false; CaptureStop;
     SendActionUpdates (mkSendActionUpdate RecordVoice (-1))].
Proof.
  destruct (release_outside_discards sampleFrequency sampleRadius
              sampleOutside
              ltac:(vm_compute; reflexivity) ltac:(vm_compute; reflexivity)
              ltac:(vm_compute; reflexivity) ltac:(vm_compute; reflexivity)
              ltac:(vm_compute; reflexivity))
    as (_ & H & _).
  vm_compute in H |- *. exact H.
Defined.

(** C4, as stated, fails for a release during the show animation: the
    recording has not started, and the end of the hide animation changes
    no recording state. *)
Lemma release_before_recording_silent :
  let s2 :=
    step sampleFrequency sampleRadius
      (step sampleFrequency sampleRadius sampleShowing
         (SendButtonEvent MouseButtonRelease))
      ShowAnimationDone in
  sendEvents (_recordingLifetime sampleShowing) = true
  /\ RecordLock.isLocked (_lock sampleShowing) = false
  /\ _inField sampleShowing = false
  /\ emitted sampleShowing s2
     = [CaptureStop; SendActionUpdates (mkSendActionUpdate RecordVoice (-1))]
  /\ ~ In (RecordingStateChanges false) (emitted sampleShowing s2).
Proof.
  cbv zeta. vm_compute. repeat split. intuition discriminate.
Qed.

(** The result callback of [stopRecording(true)], called by the backend. *)
Lemma step_CaptureResult (f r : Z) (s : State) (data : Result) (n : nat) :
  alive s = true ->
  resultPending s = S n ->
  let s2 := step f r s (CaptureResult data) in
  (res_bytes data = [] -> s2 = set_resultPending n s /\ emitted s s2 = [])
  /\ (res_bytes data <> [] ->
      emitted s s2
      = [SendVoiceRequests
           (mkVoiceToSend (res_bytes data) (res_waveform data)
              (Z.quot (res_samples data) f))])
  /\ (forall v, In (SendVoiceRequests v) (emitted s s2) ->
      res_bytes data <> []).
Proof.
  intros Ha Hp s2.
  assert (E2 : s2 = resultCallback f data (set_resultPending n s)).
  { subst s2. unfold step. rewrite Ha, Hp. reflexivity. }
  clearbody s2.
  assert (Hsame : emitted s (set_resultPending n s) = []).
  { unfold emitted. cbn [log set_resultPending]. apply skipn_all. }
  unfold resultCallback in E2.
  destruct (res_bytes data) as [|b bs] eqn:B.
  - subst s2. split; [intros _; split; [reflexivity | exact Hsame] | ].
    split; [intros H; contradiction H; reflexivity | ].
    intros v. rewrite Hsame. intros [].
  - split; [discriminate | ].
    split.
    { intros _. subst s2. apply emitted_app.
      cbn [log emit set_resultPending]. reflexivity. }
    intros v _. discriminate.
Qed.

(** C5.  After [stop(true)] has taken effect the backend holds one more
    result callback.  When it is called with an empty buffer the bar only
    forgets the callback: nothing is sent and nothing else happens.  With a
    non-empty buffer exactly one voice is sent: the bytes, the waveform and
    the samples divided by the sample rate.  So a voice is sent only for a
    non-empty buffer. *)
Theorem stop_send_empty_result (f r : Z) (s : State) (data : Result) :
  alive s = true ->
  let s1 := showAnimationDone (stop true s) in
  let s2 := step f r s1 (CaptureResult data) in
  In CaptureStopWithResult (emitted s s1)
  /\ resultPending s1 = S (resultPending s)
  /\ (res_bytes data = [] ->
      s2 = set_resultPending (resultPending s) s1 /\ emitted s1 s2 = [])
  /\ (res_bytes data <> [] ->
      emitted s1 s2
      = [SendVoiceRequests
           (mkVoiceToSend (res_bytes data) (res_waveform data)
              (Z.quot (res_samples data) f))])
  /\ (forall v, In (SendVoiceRequests v) (emitted s1 s2) ->
      res_bytes data <> []).
Proof.
  intros Ha.
  destruct (stop_done true s) as (De & Dp & _ & _ & _ & _ & Dv).
  cbv zeta in De, Dp, Dv |- *.
  rewrite Ha in Dv.
  split.
  { rewrite De. apply in_or_app. right. apply in_or_app. right.
    left. reflexivity. }
  split; [exact Dp | ].
  exact (step_CaptureResult f r (showAnimationDone (stop true s)) data
           (resultPending s) Dv Dp).
Qed.

Lemma stop_send_empty_result_witness :
  emitted (showAnimationDone (stop true sampleRecording))
    (step sampleFrequency sampleRadius
       (showAnimationDone (stop true sampleRecording))
       (CaptureResult (mkResult [] [] 4800)))
  = [].
Proof.
  destruct (stop_send_empty_result sampleFrequency sampleRadius
              sampleRecording (mkResult [] [] 4800)
              ltac:(vm_compute; reflexivity))
    as (_ & _ & H & _).
  destruct (H eq_refl) as (_ & H').
  vm_compute in H' |- *. exact H'.
Defined.

(** C7.  With a session recording, a second [stop(send)] before the hide
    animation of the first has ended changes nothing: the state is that
    after one [stop(send)], and so is the state at the end of the animation.
    There the session is cleared, the recording state has changed to false
    once, and the backend has been stopped once. *)
Theorem stop_idempotent (send : bool) (s : State) :
  _recording s = true ->
  let once := showAnimationDone (stop send s) in
  let twice := showAnimationDone (stop send (stop send s)) in
  stop send (stop send s) = stop send s
  /\ twice = once
  /\ emitted s twice
     = ((if _lockShowing s then [LockShowStarts false] else [])
        ++ [RecordingStateChanges false;
            if send then CaptureStopWithResult else CaptureStop;
            SendActionUpdates (mkSendActionUpdate RecordVoice (-1))])%list
  /\ List.length (filter isRecordingStopped (emitted s twice)) = 1%nat
  /\ _recording twice = false
  /\ _inField twice = false
  /\ _recordingSamples twice = 0
  /\ _recordingLifetime twice = emptyLifetime.
Proof.
  intros Hr once twice.
  assert (E : stop send (stop send s) = stop send s).
  { clear. destruct s as [h a rec inf [|] smp l sa sla lt rp bx nb lg];
      reflexivity. }
  assert (E' : twice = once) by (subst twice once; rewrite E; reflexivity).
  destruct (stop_done send s) as (De & _ & Dr & Di & Ds & Dt & _).
  fold once in De, Dr, Di, Ds, Dt. rewrite Hr in De.
  rewrite E'.
  split; [exact E | ].
  split; [reflexivity | ].
  split; [exact De | ].
  split.
  { rewrite De. destruct (_lockShowing s), send; reflexivity. }
  repeat split; assumption.
Qed.

Lemma stop_idempotent_witness :
  showAnimationDone (stop true (stop true sampleOutside))
  = showAnimationDone (stop true sampleOutside).
Proof.
  destruct (stop_idempotent true sampleOutside ltac:(vm_compute; reflexivity))
    as (_ & H & _).
  exact H.
Defined.

(** C10.  The destructor stops the backend without a result callback when
    the bar is recording and does nothing to it otherwise.  Whatever
    happens afterwards leaves the destroyed bar as it is, so no voice is
    sent after destruction. *)
Theorem destroy_never_sends (f r : Z) (s : State) (evs : list Event) :
  let s1 := destroy s in
  emitted s s1 = (if isRecording s then [CaptureStop] else [])
  /\ resultPending s1 = resultPending s
  /\ alive s1 = false
  /\ run f r s1 evs = s1
  /\ forall v, ~ In (SendVoiceRequests v) (emitted s (run f r s1 evs)).
Proof.
  intros s1.
  assert (Hl : log s1
               = (log s ++ (if isRecording s then [CaptureStop] else []))%list).
  { subst s1. unfold destroy, stopRecording.
    destruct (isRecording s); cbn; rewrite ?app_nil_r; reflexivity. }
  assert (Hp : resultPending s1 = resultPending s).
  { subst s1. unfold destroy, stopRecording.
    destruct (isRecording s); reflexivity. }
  assert (Hd : alive s1 = false) by reflexivity.
  assert (Hrun : run f r s1 evs = s1).
  { induction evs as [|ev evs IH]; [reflexivity | ].
    cbn [run fold_left]. unfold step at 2. rewrite Hd. exact IH. }
  split; [apply emitted_app; exact Hl | ].
  split; [exact Hp | ].
  split; [exact Hd | ].
  split; [exact Hrun | ].
  intros v. rewrite Hrun, (emitted_app _ _ _ Hl).
  destruct (isRecording s); cbn; intuition discriminate.
Qed.

(** *** The confirmation prompt *)

Section PromptFacts.

Variable f : Z.
Variable r : Z.

(** [stop] leaves the lock's progress, the filter and the boxes alone. *)
Lemma onePrompt_stop (send : bool) (s : State) :
  onePrompt s -> onePrompt (stop send s).
Proof.
  unfold onePrompt. intros (Ha & Hl & box & Hf & Hb).
  destruct s as [h a rec inf [|] smp l sa sla lt rp bx nb lg];
    cbn in *; (split; [exact Ha | split; [exact Hl | ]]);
    exists box; (split; [exact Hf | exact Hb]).
Qed.

(** [onePrompt] reads the liveness of the bar, whether the lock is locked,
    the filter and the boxes, and nothing else. *)
Lemma onePrompt_frame (s s' : State) :
  alive s' = alive s ->
  RecordLock.isLocked (_lock s') = RecordLock.isLocked (_lock s) ->
  clickOutsideFilter (_recordingLifetime s')
  = clickOutsideFilter (_recordingLifetime s) ->
  boxes s' = boxes s ->
  onePrompt s -> onePrompt s'.
Proof.
  unfold onePrompt. intros Ea El Ef Eb (Ha & Hl & box & Hf & Hb).
  rewrite Ea, El, Ef, Eb.
  split; [exact Ha | ]. split; [exact Hl | ].
  exists box. split; [exact Hf | exact Hb].
Qed.

Lemma onePrompt_assign_lockShowing (v : bool) (s : State) :
  onePrompt s -> onePrompt (assign_lockShowing v s).
Proof.
  apply onePrompt_frame; unfold assign_lockShowing;
    destruct (Bool.eqb (_lockShowing s) v); reflexivity.
Qed.

Lemma onePrompt_recordUpdated (level samples : Z) (s : State) :
  onePrompt s -> onePrompt (recordUpdated f level samples s).
Proof.
  intros H. unfold recordUpdated.
  apply (onePrompt_frame
           (if (samples <? 0) || (samples >=? kMaxSamples f)
            then stop ((samples >? 0)
                       && _inField (set_recordingSamples samples s))
                   (set_recordingSamples samples s)
            else set_recordingSamples samples s));
    try reflexivity.
  destruct ((samples <? 0) || (samples >=? kMaxSamples f)).
  - apply onePrompt_stop. exact H.
  - exact H.
Qed.




Lemma onePrompt_closeBox (id : nat) (s : State) :
  onePrompt s -> onePrompt (closeBox id s).
Proof.
  unfold onePrompt. intros (Ha & Hl & box & Hf & Hb).
  split; [exact Ha | ]. split; [exact Hl | ].
  exists box. split; [exact Hf | ].
  unfold closeBox. cbn [boxes set_boxes].
  destruct Hb as [Hb | (id' & Hb & Hbox)]; rewrite Hb; cbn [filter].
  - left; reflexivity.
  - destruct (negb (Nat.eqb id id')).
    + right. exists id'. split; [reflexivity | exact Hbox].
    + left; reflexivity.
Qed.

Lemma boxAlive_onePrompt (box : option nat) (s : State) :
  (boxes s = [] \/ exists id, boxes s = [id] /\ box = Some id) ->
  boxAlive box s = false -> boxes s = [].
Proof.
  intros [Hb | (id & Hb & Hbox)] Hdead; [exact Hb | ].
  subst box. unfold boxAlive in Hdead. rewrite Hb in Hdead.
  cbn [existsb] in Hdead. rewrite Nat.eqb_refl in Hdead. discriminate.
Qed.

Lemma onePrompt_showBox (s : State) : onePrompt s -> onePrompt (showBox s).
Proof.
  unfold onePrompt. intros (Ha & Hl & box & Hf & Hb).
  unfold showBox. rewrite Hf.
  destruct (boxAlive box s) eqn:A.
  - split; [exact Ha | ]. split; [exact Hl | ].
    exists box. split; [exact Hf | exact Hb].
  - pose proof (boxAlive_onePrompt box s Hb A) as Hnil.
    split; [exact Ha | ]. split; [exact Hl | ].
    exists (Some (nextBox s)). split; [reflexivity | ].
    right. exists (nextBox s). cbn. rewrite Hnil. split; reflexivity.
Qed.

Lemma onePrompt_filterCallback (e : QEvent) (s : State) :
  onePrompt s -> onePrompt (fst (filterCallback e s)).
Proof.
  intros H. pose proof H as (Ha & Hl & box & Hf & Hb).
  unfold filterCallback, computeResult. rewrite Hf, Hl. cbn [negb].
  destruct e as [[ | | | ] | | | | p | | ];
    cbn [orb andb];
    repeat match goal with
      | |- context [if ?b then _ else _] => destruct b
      end;
    cbn [fst];
    try exact H;
    try (apply onePrompt_showBox; exact H);
    try (apply onePrompt_stop; exact H).
Qed.

(** An outstanding prompt is left in place by whatever the filter sees. *)
Lemma filterCallback_prompt_outstanding (e : QEvent) (s : State)
    (box : option nat) :
  clickOutsideFilter (_recordingLifetime s) = Some box ->
  boxAlive box s = true ->
  let s' := fst (filterCallback e s) in
  boxes s' = boxes s
  /\ nextBox s' = nextBox s
  /\ clickOutsideFilter (_recordingLifetime s') = Some box.
Proof.
  intros Hf A. unfold filterCallback, computeResult, showBox.
  rewrite Hf, A. cbn [negb andb].
  destruct (RecordLock.isLocked (_lock s)); cbn [negb fst];
    [ | repeat split; exact Hf].
  destruct e as [[ | | | ] | | | | p | | ]; cbn [orb fst];
    rewrite ?Hf, ?A; cbn [fst]; repeat split; exact Hf.
Qed.

Lemma onePrompt_step (s : State) (ev : Event) :
  onePrompt s -> lockedPhaseEvent ev = true -> onePrompt (step f r s ev).
Proof.
  intros H Hev. pose proof H as (Ha & Hl & box & Hf & Hb).
  unfold step. rewrite Ha. cbn [negb].
  destruct ev; try discriminate Hev.
  - (* SendButtonEvent *)
    unfold sendButtonEvent. rewrite Hl. cbn [negb].
    rewrite andb_false_r. exact H.
  - (* CaptureUpdate *)
    unfold captureUpdate.
    destruct (captureUpdated (_recordingLifetime s)) as [shown | ];
      [ | exact H].
    apply onePrompt_recordUpdated.
    destruct (negb shown && negb (animating (_showAnimation s)));
      [apply onePrompt_assign_lockShowing | ]; exact H.
  - (* CaptureError *)
    unfold captureError.
    destruct (captureUpdated (_recordingLifetime s));
      [apply onePrompt_stop | ]; exact H.
  - (* CaptureResult *)
    destruct (resultPending s) as [ | n]; [exact H | ].
    unfold resultCallback.
    destruct (res_bytes data); exact H.
  - (* LevelClick *)
    unfold levelClick.
    destruct (levelClicks (_recordingLifetime s));
      [apply onePrompt_stop | ]; exact H.
  - (* LevelActive *)
    unfold levelActive.
    destruct (levelActives (_recordingLifetime s)); exact H.
  - (* AppEvent *)
    apply onePrompt_filterCallback; exact H.
  - (* BoxSure *)
    unfold boxSure.
    destruct (existsb (Nat.eqb id) (boxes s));
      [apply onePrompt_closeBox, onePrompt_stop | ]; exact H.
  - (* BoxClosed *)
    apply onePrompt_closeBox; exact H.
  - (* CallStop *)
    apply onePrompt_stop; exact H.
Qed.

End PromptFacts.

Lemma onePrompt_run (f r : Z) (evs : list Event) (s : State) :
  onePrompt s -> forallb lockedPhaseEvent evs = true ->
  onePrompt (run f r s evs).
Proof.
  revert s. induction evs as [|ev evs IH]; intros s H Hevs.
  - exact H.
  - cbn [forallb] in Hevs. apply andb_true_iff in Hevs as (Hev & Hevs).
    cbn [run fold_left]. apply IH; [ | exact Hevs].
    apply onePrompt_step; assumption.
Qed.

(** C8.  Take a session at the moment its lock has locked: the filter is
    installed with a null pointer and no confirmation box exists.  Through
    any events of the locked phase at most one box exists at a time.  While
    the filter's pointer refers to a box that exists, an event seen by the
    filter, whatever its kind, leaves that box in place, opens no other and
    leaves the pointer on it. *)
Theorem one_prompt_at_a_time
    (f r : Z) (s : State) (evs : list Event) (e : QEvent) :
  alive s = true ->
  RecordLock.isLocked (_lock s) = true ->
  clickOutsideFilter (_recordingLifetime s) = Some None ->
  boxes s = [] ->
  forallb lockedPhaseEvent evs = true ->
  let s1 := run f r s evs in
  let s2 := step f r s1 (AppEvent e) in
  (List.length (boxes s1) <= 1)%nat
  /\ forall box,
       clickOutsideFilter (_recordingLifetime s1) = Some box ->
       boxAlive box s1 = true ->
       boxes s1 = match box with Some id => [id] | None => [] end
       /\ boxes s2 = boxes s1
       /\ nextBox s2 = nextBox s1
       /\ clickOutsideFilter (_recordingLifetime s2) = Some box.
Proof.
  intros Ha Hl Hf Hb Hevs s1 s2.
  assert (H0 : onePrompt s).
  { split; [exact Ha | ]. split; [exact Hl | ].
    exists None. split; [exact Hf | left; exact Hb]. }
  pose proof (onePrompt_run f r evs s H0 Hevs) as H1. fold s1 in H1.
  clearbody s1.
  destruct H1 as (Ha1 & Hl1 & box1 & Hf1 & Hb1).
  split.
  { destruct Hb1 as [E | (id & E & _)]; rewrite E; cbn; lia. }
  intros box Hbox Alive.
  rewrite Hbox in Hf1. injection Hf1 as <-.
  split.
  { destruct Hb1 as [E | (id & E & Ebox)].
    - unfold boxAlive in Alive. rewrite E in Alive.
      destruct box; discriminate Alive.
    - rewrite E, Ebox. reflexivity. }
  subst s2. unfold step. rewrite Ha1. cbn [negb].
  apply filterCallback_prompt_outstanding; assumption.
Qed.

Lemma one_prompt_at_a_time_witness :
  (List.length
     (boxes
        (run sampleFrequency sampleRadius sampleLocked
           [AppEvent (KeyPress Key_Escape); AppEvent ContextMenu;
            AppEvent MouseButtonPress; AppEvent (KeyPress Key_Other)]))
   <= 1)%nat.
Proof.
  destruct (one_prompt_at_a_time sampleFrequency sampleRadius sampleLocked
              [AppEvent (KeyPress Key_Escape); AppEvent ContextMenu;
               AppEvent MouseButtonPress; AppEvent (KeyPress Key_Other)]
              OtherEvent
              ltac:(vm_compute; reflexivity) ltac:(vm_compute; reflexivity)
              ltac:(vm_compute; reflexivity) ltac:(vm_compute; reflexivity)
              ltac:(vm_compute; reflexivity))
    as (H & _).
  exact H.
Defined.

(** * Further properties *)

(** ** The lock widget over its whole life *)

Lemma RecordLock_hidden_step (l : RecordLock.t) (op : LockOp) :
  (RecordLock.hidden l = true -> Qeq_bool (RecordLock._progress l) 0 = true) ->
  RecordLock.hidden (applyLockOp l op) = true ->
  Qeq_bool (RecordLock._progress (applyLockOp l op)) 0 = true.
Proof.
  intros Inv. destruct op as [ | | p]; cbn [applyLockOp].
  - discriminate.
  - unfold RecordLock.hide, RecordLock.assignProgress.
    destruct (RecordLock.hidden l) eqn:Hh;
      [intros _; apply Inv; reflexivity | ].
    cbn [RecordLock._progress].
    destruct (Qeq_bool (RecordLock._progress l) 0) eqn:E; cbn; intros _.
    + exact E.
    + reflexivity.
  - unfold RecordLock.requestPaintProgress, RecordLock.assignProgress,
      RecordLock.isHidden.
    destruct (RecordLock.hidden l) eqn:Hh; cbn [orb fst];
      [intros _; apply Inv; reflexivity | ].
    destruct (RecordLock.isLocked l); cbn [fst];
      [rewrite Hh; discriminate | ].
    destruct (Qeq_bool (RecordLock._progress l) p); cbn;
      rewrite ?Hh; discriminate.
Qed.

(** A hidden lock widget holds progress 0 and is not locked, whatever was
    done to the widget since its construction. *)
Theorem RecordLock_hidden_is_reset (ops : list LockOp) :
  let l := applyLockOps RecordLock.initial ops in
  RecordLock.hidden l = true ->
  (RecordLock._progress l == 0)%Q /\ RecordLock.isLocked l = false.
Proof.
  cbv zeta.
  assert (Inv : forall l0,
             (RecordLock.hidden l0 = true ->
              Qeq_bool (RecordLock._progress l0) 0 = true) ->
             RecordLock.hidden (applyLockOps l0 ops) = true ->
             Qeq_bool (RecordLock._progress (applyLockOps l0 ops)) 0 = true).
  { induction ops as [|op ops IH]; intros l0 H0; cbn [applyLockOps fold_left].
    - exact H0.
    - apply IH. apply RecordLock_hidden_step. exact H0. }
  intros Hh. specialize (Inv RecordLock.initial (fun _ => eq_refl) Hh).
  apply Qeq_bool_iff in Inv. split; [exact Inv | ].
  unfold RecordLock.isLocked.
  destruct (Qeq_bool _ 1) eqn:E; [ | reflexivity].
  apply Qeq_bool_iff in E. rewrite Inv in E. discriminate E.
Qed.

Lemma RecordLock_hidden_is_reset_witness :
  RecordLock.isLocked
    (applyLockOps RecordLock.initial
       [LockShow; LockRequest 1%Q; LockHide; LockRequest 1%Q])
  = false.
Proof.
  apply (RecordLock_hidden_is_reset
           [LockShow; LockRequest 1%Q; LockHide; LockRequest 1%Q]).
  reflexivity.
Defined.

(** Hiding a shown lock widget and showing it again gives an open lock
    with progress 0, whatever the widget held; progress 1 then locks it and
    [locks()] fires anew. *)
Theorem RecordLock_hide_show_resets (l : RecordLock.t) :
  RecordLock.hidden l = false ->
  let l' := RecordLock.show (RecordLock.hide l) in
  RecordLock.hidden l' = false
  /\ (RecordLock._progress l' == 0)%Q
  /\ RecordLock.isLocked l' = false
  /\ RecordLock.requestPaintProgress 1%Q l' = (RecordLock.mk false 1%Q, true).
Proof.
  intros Hh l'.
  assert (Hp : Qeq_bool (RecordLock._progress l') 0 = true).
  { subst l'. unfold RecordLock.hide, RecordLock.assignProgress.
    rewrite Hh. cbn [RecordLock._progress].
    destruct (Qeq_bool (RecordLock._progress l) 0) eqn:E; cbn;
      [exact E | reflexivity]. }
  assert (Hl : RecordLock.isLocked l' = false).
  { unfold RecordLock.isLocked.
    destruct (Qeq_bool (RecordLock._progress l') 1) eqn:E; [ | reflexivity].
    apply Qeq_bool_iff in E, Hp. rewrite Hp in E. discriminate E. }
  assert (Hne : Qeq_bool (RecordLock._progress l') 1 = false) by exact Hl.
  split; [reflexivity | ].
  split; [apply Qeq_bool_iff; exact Hp | ].
  split; [exact Hl | ].
  unfold RecordLock.requestPaintProgress, RecordLock.assignProgress,
    RecordLock.isHidden.
  rewrite Hl. replace (RecordLock.hidden l') with false by reflexivity.
  cbn [orb]. rewrite Hne. reflexivity.
Qed.

Lemma RecordLock_hide_show_resets_witness :
  RecordLock.requestPaintProgress 1%Q
    (RecordLock.show (RecordLock.hide (RecordLock.mk false 1%Q)))
  = (RecordLock.mk false 1%Q, true).
Proof.
  apply (RecordLock_hide_show_resets (RecordLock.mk false 1%Q)).
  reflexivity.
Defined.

(** ** Reaching the lock *)

Lemma requestPaintProgress_reaches_one (l : RecordLock.t) (v : float64) :
  RecordLock.hidden l = false ->
  RecordLock.isLocked l = false ->
  (v == 1)%Q ->
  RecordLock.requestPaintProgress v l = (RecordLock.mk false v, true).
Proof.
  intros Hh Hl Hv.
  unfold RecordLock.requestPaintProgress, RecordLock.assignProgress,
    RecordLock.isHidden.
  rewrite Hh, Hl. cbn [orb].
  destruct (Qeq_bool (RecordLock._progress l) v) eqn:E.
  - apply Qeq_bool_iff in E. rewrite Hv in E. apply Qeq_bool_iff in E.
    unfold RecordLock.isLocked in Hl. rewrite Hl in E. discriminate E.
  - unfold RecordLock.isLocked. cbn [RecordLock._progress andb].
    apply Qeq_bool_iff in Hv. rewrite Hv. reflexivity.
Qed.

Lemma requestPaintProgress_short_of_one (l : RecordLock.t) (v : float64) :
  RecordLock.isLocked l = false ->
  ~ (v == 1)%Q ->
  snd (RecordLock.requestPaintProgress v l) = false
  /\ RecordLock.isLocked (fst (RecordLock.requestPaintProgress v l)) = false.
Proof.
  intros Hl Hv.
  assert (Hv' : Qeq_bool v 1 = false).
  { destruct (Qeq_bool v 1) eqn:E; [ | reflexivity].
    apply Qeq_bool_iff in E. contradiction. }
  unfold RecordLock.requestPaintProgress, RecordLock.assignProgress.
  rewrite Hl, orb_false_r.
  destruct (RecordLock.isHidden l); cbn [fst snd]; [split; [reflexivity | exact Hl] | ].
  destruct (Qeq_bool (RecordLock._progress l) v); cbn [fst snd andb].
  - split; [reflexivity | exact Hl].
  - unfold RecordLock.isLocked. cbn [RecordLock._progress].
    rewrite Hv'. split; reflexivity.
Qed.

(** The session locks exactly when the pointer is moved to at least one
    lock height above the top of the bar.  Take a session whose lock is
    shown, open and at rest.  A move of the pointer to such a point locks
    it: the click-outside filter is installed with no box, clicks and
    hovers of the level button are listened to, [_inField] is reset, and
    from then on moves and releases on the send button change nothing.  A
    move to a lower point leaves the lock open and the subscriptions as
    they were. *)
Theorem pointer_locks_at_lock_height (f r : Z) (s : State) (p : QPoint) :
  alive s = true ->
  sendEvents (_recordingLifetime s) = true ->
  isTypeRecord s = true ->
  RecordLock.hidden (_lock s) = false ->
  RecordLock.isLocked (_lock s) = false ->
  _showLockAnimation s = None ->
  0 < lockHeight (host s) ->
  let y := py p - py (barPos (host s)) in
  let s' := step f r s (SendButtonEvent (MouseMove p)) in
  (y <= - lockHeight (host s) ->
   RecordLock.isLocked (_lock s') = true
   /\ clickOutsideFilter (_recordingLifetime s') = Some None
   /\ levelClicks (_recordingLifetime s') = true
   /\ levelActives (_recordingLifetime s') = true
   /\ _inField s' = false
   /\ forall e, step f r s' (SendButtonEvent e) = s')
  /\ (- lockHeight (host s) < y ->
      RecordLock.isLocked (_lock s') = false
      /\ _recordingLifetime s' = _recordingLifetime s).
Proof.
  intros Ha Hsub Ht Hh Hl Hanim Hpos y s'.
  pose proof (clamp_ratio_cases y (lockHeight (host s)) Hpos) as (C0 & C1 & C2).
  set (inField :=
         if rectContains (barWidth (host s)) (barHeight (host s))
              (mapFromGlobal (barPos (host s)) p)
         then rectContains (barWidth (host s)) (barHeight (host s))
                (mapFromGlobal (barPos (host s)) p)
         else RecordLevel.inCircle r (RecordLevel.create r)
                (mapFromGlobal (levelPos (host s)) p)).
  assert (E : s' = computeAndSetLockProgress p (set_inField inField s)).
  { subst s'. unfold step, sendButtonEvent.
    rewrite Ha, Hsub, Ht, Hl. cbn [negb andb]. fold inField.
    unfold assign_inField.
    replace (_showLockAnimation (set_inField inField s)) with (@None bool)
      by (symmetry; exact Hanim).
    reflexivity. }
  clearbody s'. subst s'.
  unfold computeAndSetLockProgress.
  replace (lockProgress (set_inField inField s) p)
    with (clamp (float64_of_int y
                 / float64_of_int (0 - lockHeight (host s)))%Q 0%Q 1%Q)
    by reflexivity.
  set (v := clamp (float64_of_int y
                   / float64_of_int (0 - lockHeight (host s)))%Q 0%Q 1%Q) in *.
  replace (_lock (set_inField inField s)) with (_lock s) by reflexivity.
  split.
  - intros Hy. specialize (C1 Hy).
    rewrite (requestPaintProgress_reaches_one (_lock s) v Hh Hl C1).
    assert (Hlocked : RecordLock.isLocked (RecordLock.mk false v) = true)
      by (apply Qeq_bool_iff; exact C1).
    repeat (split; [first [exact Hlocked | reflexivity] | ]).
    intros e. unfold step, sendButtonEvent, onLocks, assign_inField,
      installClickOutsideFilter, inLifetime.
    cbn [alive _lock set_lock set_inField set_recordingLifetime
         _recordingLifetime negb].
    rewrite Ha, Hlocked. cbn [negb]. rewrite andb_false_r. reflexivity.
  - intros Hy.
    assert (Hv : ~ (v == 1)%Q).
    { destruct (Z_le_gt_dec 0 y) as [G | G].
      - rewrite (C0 G). discriminate.
      - rewrite (C2 ltac:(lia)). unfold Qeq. cbn [Qnum Qden].
        rewrite Z2Pos.id by lia. lia. }
    destruct (requestPaintProgress_short_of_one (_lock s) v Hl Hv) as (F & L).
    destruct (RecordLock.requestPaintProgress v (_lock s)) as [l fired].
    cbn [fst snd] in F, L. subst fired.
    split; [exact L | reflexivity].
Qed.

Lemma pointer_locks_at_lock_height_witness :
  RecordLock.isLocked
    (_lock (step sampleFrequency sampleRadius sampleRecording
              (SendButtonEvent (MouseMove (mkQPoint 370 300)))))
  = true.
Proof.
  destruct (pointer_locks_at_lock_height sampleFrequency sampleRadius
              sampleRecording (mkQPoint 370 300)
              ltac:(vm_compute; reflexivity) ltac:(vm_compute; reflexivity)
              ltac:(vm_compute; reflexivity) ltac:(vm_compute; reflexivity)
              ltac:(vm_compute; reflexivity) ltac:(vm_compute; reflexivity)
              ltac:(vm_compute; reflexivity))
    as (H & _).
  destruct (H ltac:(vm_compute; discriminate)) as (H' & _).
  exact H'.
Defined.

(** ** Starting a session *)

(** When the capture backend is not available at the end of the show
    animation, [startRecording] ends in [stop(false)]: the backend is never
    started, the recording state never changes, and at the end of the hide
    animation the backend gets the plain stop and the host the end of the
    send action. *)
Theorem unavailable_backend_never_records (f r : Z) (s : State) :
  alive s = true ->
  captureAvailable (host s) = false ->
  _recording s = false ->
  let s1 := run f r s [CallStartRecording; ShowAnimationDone] in
  let s2 := step f r s1 ShowAnimationDone in
  _showAnimation s1 = Some (Disappearance false)
  /\ emitted s s2
     = ((if _lockShowing s then [LockShowStarts false] else [])
        ++ [CaptureStop;
            SendActionUpdates (mkSendActionUpdate RecordVoice (-1))])%list
  /\ _recording s2 = false
  /\ _recordingLifetime s2 = emptyLifetime
  /\ resultPending s2 = resultPending s.
Proof.
  intros Ha Hav Hr s1 s2.
  set (s0 := set_showAnimation None (startRecording s)).
  assert (E1 : s1 = stop false s0).
  { subst s1 s0. cbn [run fold_left]. unfold step at 2. rewrite Ha.
    cbn [negb]. unfold step.
    replace (alive (startRecording s)) with (alive s) by reflexivity.
    rewrite Ha. cbn [negb]. unfold showAnimationDone.
    replace (_showAnimation (startRecording s)) with (Some Appearance)
      by reflexivity.
    unfold appearanceCallback.
    replace (host (set_showAnimation None (startRecording s))) with (host s)
      by reflexivity.
    rewrite Hav. reflexivity. }
  clearbody s1. subst s1.
  assert (E2 : s2 = showAnimationDone (stop false s0)).
  { subst s2. unfold step.
    destruct (stop_now false s0) as (_ & _ & _ & _ & Hv).
    rewrite Hv. replace (alive s0) with (alive s) by reflexivity.
    rewrite Ha. reflexivity. }
  clearbody s2. subst s2.
  destruct (stop_now false s0) as (Hanim & _).
  destruct (stop_done false s0) as (De & Dp & Dr & _ & _ & Dt & _).
  cbv zeta in De, Dp, Dr, Dt.
  replace (_recording s0) with (_recording s) in De by reflexivity.
  replace (_lockShowing s0) with (_lockShowing s) in De by reflexivity.
  replace (resultPending s0) with (resultPending s) in Dp by reflexivity.
  rewrite Hr in De.
  split; [exact Hanim | ].
  split; [exact De | ].
  split; [exact Dr | ].
  split; [exact Dt | exact Dp].
Qed.

Lemma unavailable_backend_never_records_witness :
  let h := mkHost (mkQPoint 0 500) 400 50 (mkQPoint 340 485) 80 true false
             None in
  emitted (initial h)
    (step sampleFrequency sampleRadius
       (run sampleFrequency sampleRadius (initial h)
          [CallStartRecording; ShowAnimationDone])
       ShowAnimationDone)
  = [CaptureStop; SendActionUpdates (mkSendActionUpdate RecordVoice (-1))].
Proof.
  intros h.
  destruct (unavailable_backend_never_records sampleFrequency sampleRadius
              (initial h) eq_refl eq_refl eq_refl)
    as (_ & H & _).
  exact H.
Defined.

(** An update of the capture backend in the normal range, once the lock has
    been asked to show, only stores the sample count and reports the send
    action. *)
Lemma captureUpdate_steady (f r level samples : Z) (s : State) :
  alive s = true ->
  captureUpdated (_recordingLifetime s) = Some true ->
  0 <= samples < kMaxSamples f ->
  step f r s (CaptureUpdate level samples)
  = emit (SendActionUpdates (mkSendActionUpdate RecordVoice 0))
      (set_recordingSamples samples s).
Proof.
  intros Ha Hc Hs. unfold step, captureUpdate, recordUpdated.
  rewrite Ha, Hc. cbn [negb andb].
  replace (samples <? 0) with false by (symmetry; apply Z.ltb_ge; lia).
  replace (samples >=? kMaxSamples f) with false
    by (symmetry; rewrite Z.geb_leb; apply Z.leb_gt; lia).
  reflexivity.
Qed.

Lemma last_cons_default {A : Type} (a : A) (l : list A) (d d' : A) :
  last (a :: l) d = last (a :: l) d'.
Proof.
  revert a. induction l as [|b l IH]; intros a; [reflexivity | ].
  change (last (b :: l) d = last (b :: l) d'). apply IH.
Qed.

Lemma captureUpdate_steady_run (f r : Z) (updates : list (Z * Z)) (s : State) :
  alive s = true ->
  captureUpdated (_recordingLifetime s) = Some true ->
  Forall (fun u => 0 <= snd u < kMaxSamples f) updates ->
  let s' := run f r s (map (fun u => CaptureUpdate (fst u) (snd u)) updates) in
  log s'
  = (log s
     ++ repeat (SendActionUpdates (mkSendActionUpdate RecordVoice 0))
          (List.length updates))%list
  /\ _recordingLifetime s' = _recordingLifetime s
  /\ _lockShowing s' = _lockShowing s
  /\ _lock s' = _lock s
  /\ _showLockAnimation s' = _showLockAnimation s
  /\ _recordingSamples s'
     = snd (last updates (0, _recordingSamples s)).
Proof.
  revert s. induction updates as [|[level samples] updates IH];
    intros s Ha Hc Hall.
  - cbn. rewrite app_nil_r. repeat split.
  - inversion Hall as [|u us Hu Hus]; subst. cbn [snd] in Hu.
    cbn [map run fold_left fst snd].
    rewrite (captureUpdate_steady f r level samples s Ha Hc Hu).
    set (s1 := emit (SendActionUpdates (mkSendActionUpdate RecordVoice 0))
                 (set_recordingSamples samples s)).
    specialize (IH s1 Ha Hc Hus). cbv zeta in IH. unfold run in IH.
    destruct IH as (Il & It & Is & Ik & Ia & Im).
    rewrite Il, It, Is, Ik, Ia, Im.
    split.
    { subst s1. cbn [log emit set_recordingSamples List.length repeat].
      rewrite <- app_assoc. reflexivity. }
    split; [reflexivity | ]. split; [reflexivity | ].
    split; [reflexivity | ]. split; [reflexivity | ].
    destruct updates as [|u' us']; [reflexivity | ].
    change (last ((level, samples) :: u' :: us') (0, _recordingSamples s))
      with (last (u' :: us') (0, _recordingSamples s)).
    f_equal. apply last_cons_default.
Qed.

Lemma filter_isLockShown_reports (n : nat) :
  filter isLockShown
    (repeat (SendActionUpdates (mkSendActionUpdate RecordVoice 0)) n)
  = [].
Proof. induction n as [|n IH]; [reflexivity | exact IH]. Qed.

(** The lock slides in once per session.  In a session that records, with
    the bar fully shown and the lock not yet asked for, any run of capture
    updates in the normal range starts the lock's show exactly once, with
    the first update; each update reports the send action once and the
    sample count shown is that of the last update. *)
Theorem lock_shows_with_first_update
    (f r : Z) (s : State) (u : Z * Z) (updates : list (Z * Z)) :
  alive s = true ->
  captureUpdated (_recordingLifetime s) = Some false ->
  _showAnimation s = None ->
  _lockShowing s = false ->
  Forall (fun u => 0 <= snd u < kMaxSamples f) (u :: updates) ->
  let s' :=
    run f r s (map (fun u => CaptureUpdate (fst u) (snd u)) (u :: updates)) in
  emitted s s'
  = LockShowStarts true
    :: repeat (SendActionUpdates (mkSendActionUpdate RecordVoice 0))
         (S (List.length updates))
  /\ countEffects isLockShown (emitted s s') = 1%nat
  /\ _lockShowing s' = true
  /\ RecordLock.hidden (_lock s') = false
  /\ _showLockAnimation s' = Some true
  /\ _recordingSamples s' = snd (last (u :: updates) (0, 0)).
Proof.
  intros Ha Hc Hanim Hls Hall s'.
  inversion Hall as [|u0 us Hu Hus]; subst.
  destruct u as [level samples]. cbn [snd] in Hu.
  set (s1 := emit (SendActionUpdates (mkSendActionUpdate RecordVoice 0))
               (set_recordingSamples samples
                  (assign_lockShowing true
                     (inLifetime (set_captureUpdated (Some true)) s)))).
  assert (E1 : step f r s (CaptureUpdate level samples) = s1).
  { unfold step, captureUpdate, recordUpdated.
    rewrite Ha, Hc, Hanim. cbn [negb andb animating].
    replace (samples <? 0) with false by (symmetry; apply Z.ltb_ge; lia).
    replace (samples >=? kMaxSamples f) with false
      by (symmetry; rewrite Z.geb_leb; apply Z.leb_gt; lia).
    reflexivity. }
  assert (F1 : log s1
               = (log s ++ [LockShowStarts true;
                            SendActionUpdates
                              (mkSendActionUpdate RecordVoice 0)])%list
               /\ alive s1 = true
               /\ captureUpdated (_recordingLifetime s1) = Some true
               /\ _lockShowing s1 = true
               /\ RecordLock.hidden (_lock s1) = false
               /\ _showLockAnimation s1 = Some true
               /\ _recordingSamples s1 = samples).
  { subst s1. unfold assign_lockShowing, inLifetime.
    cbn [_lockShowing set_recordingLifetime]. rewrite Hls.
    cbn. rewrite <- app_assoc. repeat split. exact Ha. }
  destruct F1 as (L1 & A1 & C1 & S1 & K1 & M1 & R1).
  assert (E : s' = run f r s1
                     (map (fun u => CaptureUpdate (fst u) (snd u)) updates)).
  { subst s'. cbn [map run fold_left fst snd]. rewrite E1. reflexivity. }
  clearbody s' s1. subst s'.
  destruct (captureUpdate_steady_run f r updates s1 A1 C1 Hus)
    as (Il & _ & Is & Ik & Ia & Im).
  assert (Hem : emitted s
                  (run f r s1
                     (map (fun u => CaptureUpdate (fst u) (snd u)) updates))
                = LockShowStarts true
                  :: repeat
                       (SendActionUpdates (mkSendActionUpdate RecordVoice 0))
                       (S (List.length updates))).
  { apply emitted_app. rewrite Il, L1, <- app_assoc. reflexivity. }
  split; [exact Hem | ].
  split.
  { rewrite Hem. unfold countEffects. cbn [filter isLockShown].
    rewrite filter_isLockShown_reports. reflexivity. }
  rewrite Is, Ik, Ia, Im, R1.
  split; [exact S1 | ]. split; [exact K1 | ]. split; [exact M1 | ].
  destruct updates as [|u' us']; [reflexivity | ].
  change (last ((level, samples) :: u' :: us') (0, 0))
    with (last (u' :: us') (0, 0)).
  f_equal. apply last_cons_default.
Qed.

Lemma lock_shows_with_first_update_witness :
  let s := run sampleFrequency sampleRadius (initial sampleHost)
             [CallStartRecording; ShowAnimationDone] in
  countEffects isLockShown
    (emitted s
       (run sampleFrequency sampleRadius s
          (map (fun u => CaptureUpdate (fst u) (snd u))
             [(0, 480); (7, 960); (3, 1440)])))
  = 1%nat.
Proof.
  intros s.
  destruct (lock_shows_with_first_update sampleFrequency sampleRadius s
              (0, 480) [(7, 960); (3, 1440)]
              eq_refl eq_refl eq_refl eq_refl
              ltac:(repeat constructor; vm_compute; discriminate))
    as (_ & H & _).
  exact H.
Defined.

(** ** What asks for sending *)

Lemma showAnimation_stop (send : bool) (s : State) :
  _showAnimation (stop send s) = Some (Disappearance send).
Proof. reflexivity. Qed.

Lemma showAnimation_computeAndSetLockProgress (p : QPoint) (s : State) :
  _showAnimation (computeAndSetLockProgress p s) = _showAnimation s.
Proof.
  unfold computeAndSetLockProgress.
  destruct (RecordLock.requestPaintProgress (lockProgress s p) (_lock s))
    as [l [|]]; reflexivity.
Qed.

Lemma showAnimation_showBox (s : State) :
  _showAnimation (showBox s) = _showAnimation s.
Proof.
  unfold showBox.
  destruct (clickOutsideFilter (_recordingLifetime s)) as [box | ];
    [ | reflexivity].
  destruct (boxAlive box s); reflexivity.
Qed.

Lemma showAnimation_assign_recording (v : bool) (s : State) :
  _showAnimation (assign_recording v s) = _showAnimation s.
Proof.
  unfold assign_recording. destruct (Bool.eqb (_recording s) v); reflexivity.
Qed.

Lemma send_flag (b : bool) (x : option ShowCallback) :
  Some (Disappearance b) = Some (Disappearance true) -> b = true.
Proof. intros H. injection H as H. exact H. Qed.

(** A hide animation that will send is started by nothing but a release of
    the pointer in the field, a capture update at the maximum length with
    the pointer in the field, a click on the level button, Enter or Return
    while locked, or [stop(true)] itself.  A capture error, Escape, the
    confirmation box and every other event never ask for sending. *)
Theorem stop_true_only_on_request (f r : Z) (s : State) (ev : Event) :
  _showAnimation (step f r s ev) = Some (Disappearance true) ->
  _showAnimation s = Some (Disappearance true) \/ asksToSend s f ev.
Proof.
  unfold step. destruct (alive s); cbn [negb]; [ | left; assumption].
  destruct ev as [ | cursor | e | level samples | | data | | enter | e
                 | id | id | | send | ]; cbn [asksToSend].
  - (* ShowAnimationDone *)
    destruct (_showAnimation s) as [[ | send] | ] eqn:E.
    + unfold showAnimationDone. rewrite E. unfold appearanceCallback.
      destruct (captureAvailable _); cbn [negb].
      * cbn [_showAnimation emit]. rewrite showAnimation_assign_recording.
        discriminate.
      * rewrite showAnimation_stop. discriminate.
    + destruct (showAnimationDone_disappearance send s E)
        as (_ & _ & _ & _ & _ & _ & H & _).
      rewrite H. discriminate.
    + unfold showAnimationDone. rewrite E. rewrite E. discriminate.
  - (* ShowLockAnimationDone *)
    unfold showLockAnimationDone.
    destruct (_showLockAnimation s) as [[|] | ]; intros H; left;
      [rewrite showAnimation_computeAndSetLockProgress in H | | ];
      exact H.
  - (* SendButtonEvent *)
    unfold sendButtonEvent.
    destruct (sendEvents (_recordingLifetime s) && isTypeRecord s
              && negb (RecordLock.isLocked (_lock s)));
      [ | left; assumption].
    destruct e; try (left; assumption).
    + unfold assign_inField.
      match goal with
      | |- context [animating ?a] => destruct (animating a)
      end; intros H; left;
        [ | rewrite showAnimation_computeAndSetLockProgress in H]; exact H.
    + intros H. right. apply (send_flag _ None). exact H.
  - (* CaptureUpdate *)
    unfold captureUpdate.
    destruct (captureUpdated (_recordingLifetime s)) as [shown | ];
      [ | left; assumption].
    unfold recordUpdated.
    match goal with
    | |- context [recordUpdated] => idtac
    | |- context [if negb shown && ?a then ?x else ?y] =>
        set (s1 := if negb shown && a then x else y)
    end.
    assert (F : _showAnimation s1 = _showAnimation s /\ _inField s1 = _inField s).
    { subst s1. destruct (negb shown && _); [ | split; reflexivity].
      unfold assign_lockShowing, inLifetime.
      cbn [_lockShowing set_recordingLifetime].
      destruct (Bool.eqb (_lockShowing s) true); split; reflexivity. }
    destruct F as (F1 & F2).
    destruct ((samples <? 0) || (samples >=? kMaxSamples f)) eqn:C.
    + intros H. right. cbn in H. apply (send_flag _ None) in H.
      apply andb_true_iff in H as (G & I).
      cbn in I. rewrite F2 in I. split; [ | exact I].
      rewrite Z.gtb_ltb in G. apply Z.ltb_lt in G.
      apply orb_true_iff in C as [C | C];
        [apply Z.ltb_lt in C; lia | apply Z.geb_le in C; exact C].
    + intros H. left. cbn in H. rewrite F1 in H. exact H.
  - (* CaptureError *)
    unfold captureError.
    destruct (captureUpdated (_recordingLifetime s));
      [intros H; cbn in H; discriminate H | left; assumption].
  - (* CaptureResult *)
    destruct (resultPending s); [left; assumption | ].
    unfold resultCallback. destruct (res_bytes data); left; assumption.
  - (* LevelClick *)
    right. exact I.
  - (* LevelActive *)
    unfold levelActive.
    destruct (levelActives (_recordingLifetime s)); left; assumption.
  - (* AppEvent *)
    unfold filterCallback.
    destruct (clickOutsideFilter (_recordingLifetime s)) as [box | ];
      [ | left; assumption].
    unfold computeResult.
    destruct (RecordLock.isLocked (_lock s)); cbn [negb];
      [ | left; assumption].
    destruct e as [[ | | | ] | | | | p | | ]; cbn [orb andb fst];
      repeat match goal with
        | |- context [if ?b then _ else _] => destruct b
        end;
      cbn [fst]; rewrite ?showAnimation_showBox;
      try (left; assumption); intros _; right; reflexivity.
  - (* BoxSure *)
    unfold boxSure.
    destruct (existsb (Nat.eqb id) (boxes s));
      [intros H; cbn in H; discriminate H | left; assumption].
  - (* BoxClosed *)
    left; assumption.
  - (* CallStartRecording *)
    intros H; cbn in H; discriminate H.
  - (* CallStop *)
    intros H. right. apply (send_flag _ None). exact H.
  - (* Destroy *)
    intros H; cbn in H; discriminate H.
Qed.

Lemma stop_true_only_on_request_witness :
  _showAnimation sampleLocked = Some (Disappearance true)
  \/ asksToSend sampleLocked sampleFrequency
       (AppEvent (KeyPress Key_Enter)).
Proof.
  apply (stop_true_only_on_request sampleFrequency sampleRadius sampleLocked
           (AppEvent (KeyPress Key_Enter))).
  vm_compute. reflexivity.
Defined.

(** ** What the log of a bar can hold *)

Ltac branch_eqn :=
  match goal with
  | |- context [match ?x with _ => _ end] => innermost x; destruct x eqn:?
  end.

Ltac step_cases ev :=
  destruct ev; handlers; repeat branch_eqn;
  cbn [log resultPending emit set_alive set_recording set_inField
       set_lockShowing set_recordingSamples set_lock set_showAnimation
       set_showLockAnimation set_recordingLifetime set_resultPending
       set_boxes fst snd].

Section LogFacts.

Variable f : Z.
Variable r : Z.

Lemma sends_within_requests_step (s : State) (ev : Event) :
  (countEffects isSendVoiceRequest (log s) + resultPending s
   <= countEffects isStopWithResult (log s))%nat ->
  (countEffects isSendVoiceRequest (log (step f r s ev))
   + resultPending (step f r s ev)
   <= countEffects isStopWithResult (log (step f r s ev)))%nat.
Proof.
  unfold countEffects. step_cases ev;
    rewrite ?filter_app, ?length_app;
    cbn [filter isSendVoiceRequest isStopWithResult List.length];
    lia.
Qed.

Lemma carriesBytes_step (s : State) (ev : Event) :
  Forall carriesBytes (log s) -> Forall carriesBytes (log (step f r s ev)).
Proof.
  step_cases ev; intros H;
    repeat (apply Forall_app; split);
    try exact H;
    repeat constructor; cbn; discriminate.
Qed.

End LogFacts.

(** A bar never sends more voices than it has asked the backend for: in
    the log of any run from the fresh bar, the voices sent and the result
    callbacks still with the backend are together at most the stops made
    with a result callback. *)
Theorem sends_within_requests (f r : Z) (h : Host) (evs : list Event) :
  let s := run f r (initial h) evs in
  (countEffects isSendVoiceRequest (log s) + resultPending s
   <= countEffects isStopWithResult (log s))%nat.
Proof.
  cbv zeta.
  assert (G : forall s0,
             (countEffects isSendVoiceRequest (log s0) + resultPending s0
              <= countEffects isStopWithResult (log s0))%nat ->
             (countEffects isSendVoiceRequest (log (run f r s0 evs))
              + resultPending (run f r s0 evs)
              <= countEffects isStopWithResult (log (run f r s0 evs)))%nat).
  { induction evs as [|ev evs IH]; intros s0 H0; [exact H0 | ].
    cbn [run fold_left]. apply IH. apply sends_within_requests_step.
    exact H0. }
  apply G. cbn. lia.
Qed.

(** A bar never sends an empty voice: every voice in the log of any run
    from the fresh bar carries bytes. *)
Theorem sent_voice_carries_bytes
    (f r : Z) (h : Host) (evs : list Event) (v : VoiceToSend) :
  In (SendVoiceRequests v) (log (run f r (initial h) evs)) ->
  bytes v <> [].
Proof.
  assert (G : forall s0,
             Forall carriesBytes (log s0) ->
             Forall carriesBytes (log (run f r s0 evs))).
  { induction evs as [|ev evs IH]; intros s0 H0; [exact H0 | ].
    cbn [run fold_left]. apply IH. apply carriesBytes_step. exact H0. }
  intros Hin.
  specialize (G (initial h) (Forall_nil _)).
  rewrite Forall_forall in G. exact (G _ Hin).
Qed.

Lemma sent_voice_carries_bytes_witness :
  bytes (mkVoiceToSend [Byte.x01] [] 2) <> [].
Proof.
  apply (sent_voice_carries_bytes sampleFrequency sampleRadius sampleHost
           [CallStartRecording; ShowAnimationDone; CaptureUpdate 0 4800;
            CallStop true; ShowAnimationDone;
            CaptureResult (mkResult [Byte.x01] [] 96000)]).
  vm_compute. right. right. right. right. right. right. right. right.
  left. reflexivity.
Defined.

(** ** Recording and the capture subscription *)

Lemma subscribedWhileRecording_step (f r : Z) (s : State) (ev : Event) :
  subscribedWhileRecording s -> subscribedWhileRecording (step f r s ev).
Proof.
  unfold subscribedWhileRecording.
  step_cases ev; cbn in *; intros Inv Ha Hsub;
    repeat match goal with
      | H : Bool.eqb ?a _ = _ |- _ => destruct a eqn:?; cbn in H
      | H : negb ?a = _ |- _ => destruct a eqn:?; cbn in H
      end;
    try discriminate; try reflexivity; try congruence;
    try (apply Inv; congruence).
Qed.

(** In every state a living bar can reach, the bar is subscribed to the
    updates of the capture backend only while [isRecording()] holds, so a
    bar that is not recording ignores capture updates and capture errors.
    After a capture error no update is handled any more. *)
Theorem subscribed_only_while_recording
    (f r : Z) (h : Host) (evs : list Event) :
  let s := run f r (initial h) evs in
  alive s = true ->
  (captureUpdated (_recordingLifetime s) <> None -> _recording s = true)
  /\ (_recording s = false ->
      forall level samples,
        step f r s (CaptureUpdate level samples) = s
        /\ step f r s CaptureError = s)
  /\ (forall level samples,
        step f r (step f r s CaptureError) (CaptureUpdate level samples)
        = step f r s CaptureError).
Proof.
  intros s Ha.
  assert (G : forall s0, subscribedWhileRecording s0 ->
                         subscribedWhileRecording (run f r s0 evs)).
  { clear. induction evs as [|ev evs IH]; intros s0 H0; [exact H0 | ].
    cbn [run fold_left]. apply IH. apply subscribedWhileRecording_step.
    exact H0. }
  assert (G0 : subscribedWhileRecording (initial h)).
  { intros _ H. contradiction H. reflexivity. }
  specialize (G (initial h) G0). fold s in G.
  specialize (G Ha). clearbody s.
  split; [exact G | ].
  split.
  - intros Hr level samples.
    destruct (captureUpdated (_recordingLifetime s)) as [shown | ] eqn:E.
    + rewrite G in Hr by discriminate. discriminate Hr.
    + unfold step, captureUpdate, captureError. rewrite Ha, E.
      split; reflexivity.
  - intros level samples.
    assert (E0 : step f r s CaptureError = captureError s)
      by (unfold step; rewrite Ha; reflexivity).
    rewrite E0. unfold captureError.
    destruct (captureUpdated (_recordingLifetime s)) as [shown | ] eqn:E.
    + set (s1 := stop false (inLifetime (set_captureUpdated None) s)).
      assert (A1 : alive s1 = true).
      { subst s1.
        destruct (stop_now false (inLifetime (set_captureUpdated None) s))
          as (_ & _ & _ & _ & Hv).
        rewrite Hv. exact Ha. }
      assert (C1 : captureUpdated (_recordingLifetime s1) = None).
      { subst s1. unfold stop, visibilityAnimate, assign_lockShowing.
        destruct (Bool.eqb _ false); reflexivity. }
      unfold step, captureUpdate. rewrite A1, C1. reflexivity.
    + unfold step, captureUpdate. rewrite Ha, E. reflexivity.
Qed.

Lemma subscribed_only_while_recording_witness :
  step sampleFrequency sampleRadius
    (run sampleFrequency sampleRadius (initial sampleHost)
       [CallStartRecording])
    (CaptureUpdate 0 4800)
  = run sampleFrequency sampleRadius (initial sampleHost)
      [CallStartRecording].
Proof.
  destruct (subscribed_only_while_recording sampleFrequency sampleRadius
              sampleHost [CallStartRecording] eq_refl)
    as (_ & H & _).
  destruct (H eq_refl 0 4800) as (H' & _).
  exact H'.
Defined.

(** ** The locked phase *)

Lemma isLocked_assign_lockShowing (v : bool) (s : State) :
  RecordLock.isLocked (_lock (assign_lockShowing v s))
  = RecordLock.isLocked (_lock s).
Proof.
  unfold assign_lockShowing.
  destruct (Bool.eqb (_lockShowing s) v); reflexivity.
Qed.

Lemma isLocked_stop (send : bool) (s : State) :
  RecordLock.isLocked (_lock (stop send s)) = RecordLock.isLocked (_lock s).
Proof. apply (isLocked_assign_lockShowing false s). Qed.

Lemma lock_computeAndSetLockProgress_locked (p : QPoint) (s : State) :
  RecordLock.isLocked (_lock s) = true ->
  _lock (computeAndSetLockProgress p s) = _lock s.
Proof.
  intros H. unfold computeAndSetLockProgress.
  rewrite requestPaintProgress_locked by exact H. reflexivity.
Qed.

Lemma lock_showBox (s : State) : _lock (showBox s) = _lock s.
Proof.
  unfold showBox.
  destruct (clickOutsideFilter (_recordingLifetime s)) as [box | ];
    [ | reflexivity].
  destruct (boxAlive box s); reflexivity.
Qed.

Ltac same_lock s :=
  match goal with
  | |- RecordLock.isLocked (_lock ?x) = false -> _ =>
      replace (_lock x) with (_lock s) by reflexivity; congruence
  end.

(** Once the lock has locked it stays locked through whatever happens,
    until the animation that slides the lock away has ended: that is the
    only event after which a locked lock is found open. *)
Theorem locked_until_slid_out (f r : Z) (s : State) (ev : Event) :
  RecordLock.isLocked (_lock s) = true ->
  RecordLock.isLocked (_lock (step f r s ev)) = false ->
  (exists cursor, ev = ShowLockAnimationDone cursor)
  /\ _showLockAnimation s = Some false
  /\ RecordLock.hidden (_lock (step f r s ev)) = true.
Proof.
  intros Hl. unfold step.
  destruct (alive s); cbn [negb]; [ | congruence].
  destruct ev as [ | cursor | e | level samples | | data | | enter | e
                 | id | id | | send | ].
  - (* ShowAnimationDone *)
    unfold showAnimationDone.
    destruct (_showAnimation s) as [[ | send] | ]; [ | | congruence].
    + unfold appearanceCallback.
      destruct (captureAvailable _); cbn [negb].
      * unfold assign_recording, inLifetime.
        match goal with
        | |- context [if ?b then _ else _] => destruct b
        end; same_lock s.
      * rewrite isLocked_stop. same_lock s.
    + unfold disappearanceCallback, assign_recording, assign_inField,
        stopRecording.
      repeat match goal with
        | |- context [if ?b then _ else _] => destruct b
        end; same_lock s.
  - (* ShowLockAnimationDone *)
    unfold showLockAnimationDone.
    destruct (_showLockAnimation s) as [[|] | ]; [ | | congruence].
    + rewrite lock_computeAndSetLockProgress_locked by exact Hl.
      same_lock s.
    + intros H. split; [exists cursor; reflexivity | ].
      split; [reflexivity | ].
      cbn [_lock set_lock set_showLockAnimation].
      unfold RecordLock.hide, RecordLock.assignProgress.
      destruct (RecordLock.hidden (_lock s)) eqn:Hh; [exact Hh | ].
      cbn [RecordLock._progress].
      destruct (Qeq_bool (RecordLock._progress (_lock s)) 0); reflexivity.
  - (* SendButtonEvent *)
    unfold sendButtonEvent. rewrite Hl. cbn [negb].
    rewrite andb_false_r. congruence.
  - (* CaptureUpdate *)
    unfold captureUpdate.
    destruct (captureUpdated (_recordingLifetime s)) as [shown | ];
      [ | congruence].
    unfold recordUpdated. cbn [_lock emit].
    match goal with
    | |- context [if negb shown && ?a then ?x else ?y] =>
        set (s1 := if negb shown && a then x else y)
    end.
    assert (F : RecordLock.isLocked (_lock s1) = true).
    { subst s1. destruct (negb shown && _); [ | exact Hl].
      rewrite isLocked_assign_lockShowing. exact Hl. }
    destruct ((samples <? 0) || (samples >=? kMaxSamples f)).
    + rewrite isLocked_stop. cbn [_lock set_recordingSamples]. congruence.
    + cbn [_lock set_recordingSamples]. congruence.
  - (* CaptureError *)
    unfold captureError.
    destruct (captureUpdated (_recordingLifetime s));
      [rewrite isLocked_stop; same_lock s | congruence].
  - (* CaptureResult *)
    destruct (resultPending s); [congruence | ].
    unfold resultCallback. destruct (res_bytes data); same_lock s.
  - (* LevelClick *)
    unfold levelClick.
    destruct (levelClicks (_recordingLifetime s));
      [rewrite isLocked_stop | ]; congruence.
  - (* LevelActive *)
    unfold levelActive.
    destruct (levelActives (_recordingLifetime s)); same_lock s.
  - (* AppEvent *)
    unfold filterCallback.
    destruct (clickOutsideFilter (_recordingLifetime s)) as [box | ];
      [ | cbn [fst]; congruence].
    unfold computeResult. rewrite Hl. cbn [negb].
    destruct e as [[ | | | ] | | | | p | | ]; cbn [orb andb fst];
      repeat match goal with
        | |- context [if ?b then _ else _] => destruct b
        end;
      cbn [fst]; rewrite ?lock_showBox, ?isLocked_stop; congruence.
  - (* BoxSure *)
    unfold boxSure.
    destruct (existsb (Nat.eqb id) (boxes s)); [ | congruence].
    unfold closeBox. cbn [_lock set_boxes].
    rewrite isLocked_stop. congruence.
  - (* BoxClosed *)
    same_lock s.
  - (* CallStartRecording *)
    same_lock s.
  - (* CallStop *)
    rewrite isLocked_stop. congruence.
  - (* Destroy *)
    unfold destroy, stopRecording.
    destruct (isRecording s); same_lock s.
Qed.

Lemma locked_until_slid_out_witness :
  _showLockAnimation (stop true sampleLocked) = Some false.
Proof.
  destruct (locked_until_slid_out sampleFrequency sampleRadius
              (stop true sampleLocked)
              (ShowLockAnimationDone (mkQPoint 0 0))
              ltac:(vm_compute; reflexivity) ltac:(vm_compute; reflexivity))
    as (_ & H & _).
  exact H.
Defined.

(** ** Escape in the locked phase *)

(** In the locked phase with no box open, Escape goes two ways.  When the
    host's escape filter takes the key, the bar's filter lets the event
    pass and changes nothing.  Otherwise the event is swallowed and one
    confirmation box opens, the session going on as it was; confirming the
    box closes it and calls [stop(false)], so that at the end of the hide
    animation the recording state changes to false, the backend gets the
    plain stop and no voice is sent. *)
Theorem escape_discards_through_box (f r : Z) (s : State) :
  alive s = true ->
  _recording s = true ->
  RecordLock.isLocked (_lock s) = true ->
  clickOutsideFilter (_recordingLifetime s) = Some None ->
  boxes s = [] ->
  let pressed := filterCallback (KeyPress Key_Escape) s in
  let id := nextBox s in
  let s1 := fst pressed in
  let s2 := step f r s1 (BoxSure id) in
  let s3 := step f r s2 ShowAnimationDone in
  (_escFilter (host s) = Some true -> pressed = (s, FilterContinue))
  /\ (_escFilter (host s) <> Some true ->
      snd pressed = FilterCancel
      /\ s1 = inLifetime (set_clickOutsideFilter (Some (Some id)))
                (set_boxes [id] (S id) s)
      /\ boxes s2 = []
      /\ _showAnimation s2 = Some (Disappearance false)
      /\ emitted s s3
         = ((if _lockShowing s then [LockShowStarts false] else [])
            ++ [RecordingStateChanges false; CaptureStop;
                SendActionUpdates (mkSendActionUpdate RecordVoice (-1))])%list
      /\ resultPending s3 = resultPending s).
Proof.
  intros Ha Hr Hl Hf Hb pressed id s1 s2 s3.
  assert (Hp : pressed
               = if match _escFilter (host s) with
                    | Some b => b
                    | None => false
                    end
                 then (s, FilterContinue)
                 else (showBox s, FilterCancel)).
  { subst pressed. unfold filterCallback, computeResult.
    rewrite Hf, Hl. cbn [negb boxAlive andb].
    destruct (_escFilter (host s)) as [[|] | ]; reflexivity. }
  assert (Hs : showBox s
               = inLifetime (set_clickOutsideFilter (Some (Some id)))
                   (set_boxes [id] (S id) s)).
  { unfold showBox. rewrite Hf. cbn [boxAlive]. rewrite Hb. reflexivity. }
  split.
  { intros He. rewrite Hp, He. reflexivity. }
  intros He.
  assert (Hp' : pressed = (showBox s, FilterCancel)).
  { rewrite Hp. destruct (_escFilter (host s)) as [[|] | ];
      [contradiction He; reflexivity | reflexivity | reflexivity]. }
  assert (E1 : s1 = inLifetime (set_clickOutsideFilter (Some (Some id)))
                      (set_boxes [id] (S id) s)).
  { subst s1. rewrite Hp'. exact Hs. }
  clearbody pressed. subst pressed. clearbody s1. subst s1.
  set (s1 := inLifetime (set_clickOutsideFilter (Some (Some id)))
               (set_boxes [id] (S id) s)) in *.
  assert (E2 : s2 = closeBox id (stop false s1)).
  { subst s2. unfold step, boxSure.
    replace (alive s1) with (alive s) by reflexivity. rewrite Ha.
    cbn [negb]. replace (boxes s1) with [id] by reflexivity.
    cbn [existsb]. rewrite Nat.eqb_refl. reflexivity. }
  clearbody s2. subst s2.
  assert (E3 : s3 = showAnimationDone (closeBox id (stop false s1))).
  { subst s3. unfold step.
    replace (alive (closeBox id (stop false s1))) with (alive (stop false s1))
      by reflexivity.
    destruct (stop_now false s1) as (_ & _ & _ & _ & Hv). rewrite Hv.
    replace (alive s1) with (alive s) by reflexivity. rewrite Ha.
    reflexivity. }
  clearbody s3. subst s3.
  destruct (stop_now false s1) as (Hanim & Hlog & Hrec & Hpen & _).
  assert (Hanim' : _showAnimation (closeBox id (stop false s1))
                   = Some (Disappearance false)) by exact Hanim.
  destruct (showAnimationDone_disappearance false _ Hanim')
    as (Dl & Dp & _).
  cbv zeta in Dl, Dp.
  replace (log (closeBox id (stop false s1))) with (log (stop false s1))
    in Dl by reflexivity.
  replace (_recording (closeBox id (stop false s1)))
    with (_recording (stop false s1)) in Dl by reflexivity.
  replace (resultPending (closeBox id (stop false s1)))
    with (resultPending (stop false s1)) in Dp by reflexivity.
  rewrite Hlog, Hrec in Dl. rewrite Hpen in Dp.
  replace (log s1) with (log s) in Dl by reflexivity.
  replace (_lockShowing s1) with (_lockShowing s) in Dl by reflexivity.
  replace (_recording s1) with (_recording s) in Dl by reflexivity.
  replace (resultPending s1) with (resultPending s) in Dp by reflexivity.
  rewrite Hr in Dl.
  split; [rewrite Hp'; reflexivity | ].
  split; [reflexivity | ].
  split.
  { unfold closeBox. cbn [boxes set_boxes].
    replace (boxes (stop false s1)) with [id].
    - cbn [filter]. rewrite Nat.eqb_refl. reflexivity.
    - unfold stop, visibilityAnimate, assign_lockShowing.
      destruct (Bool.eqb (_lockShowing s1) false); reflexivity. }
  split; [exact Hanim' | ].
  split; [ | exact Dp].
  apply emitted_app. rewrite Dl, <- app_assoc. reflexivity.
Qed.

Lemma escape_discards_through_box_witness :
  boxes
    (step sampleFrequency sampleRadius
       (fst (filterCallback (KeyPress Key_Escape) sampleLocked))
       (BoxSure (nextBox sampleLocked)))
  = [].
Proof.
  destruct (escape_discards_through_box sampleFrequency sampleRadius
              sampleLocked
              ltac:(vm_compute; reflexivity) ltac:(vm_compute; reflexivity)
              ltac:(vm_compute; reflexivity) ltac:(vm_compute; reflexivity)
              ltac:(vm_compute; reflexivity))
    as (_ & H).
  destruct (H ltac:(vm_compute; discriminate)) as (_ & _ & H' & _).
  exact H'.
Defined.

(** ** A whole session *)

(** Press, hold and release in the field, from the fresh bar to the fresh
    bar.  With the backend available and the send button in record mode:
    start, the end of the show animation, one capture update in the normal
    range, a release, the end of the lock's and the bar's hide animations
    and a non-empty result leave the bar exactly as it was constructed, but
    for the result callback consumed and the log, which holds in this order
    the start of the recording and of the backend, the lock's show, the send
    action, the lock's hide, the end of the recording, the stop with a
    result callback, the end of the send action and the one voice sent. *)
Theorem press_hold_release_round_trip
    (f r : Z) (h : Host) (level samples : Z) (cursor : QPoint)
    (data : Result) :
  captureAvailable h = true ->
  sendTypeRecord h = true ->
  0 <= samples < kMaxSamples f ->
  res_bytes data <> [] ->
  run f r (initial h)
    [CallStartRecording; ShowAnimationDone; CaptureUpdate level samples;
     SendButtonEvent MouseButtonRelease; ShowLockAnimationDone cursor;
     ShowAnimationDone; CaptureResult data]
  = mkState h true false false false 0 RecordLock.initial None None
      emptyLifetime 0%nat [] 0%nat
      [RecordingStateChanges true; CaptureStart; LockShowStarts true;
       SendActionUpdates (mkSendActionUpdate RecordVoice 0);
       LockShowStarts false; RecordingStateChanges false;
       CaptureStopWithResult;
       SendActionUpdates (mkSendActionUpdate RecordVoice (-1));
       SendVoiceRequests
         (mkVoiceToSend (res_bytes data) (res_waveform data)
            (Duration f (res_samples data)))].
Proof.
  intros Hav Ht Hs Hd.
  assert (T1 : (samples <? 0) = false) by (apply Z.ltb_ge; lia).
  assert (T2 : (samples >=? kMaxSamples f) = false)
    by (rewrite Z.geb_leb; apply Z.leb_gt; lia).
  destruct h as [bp bw bh lp lh st ca ef]. cbn in Hav, Ht. subst st ca.
  unfold run. cbn [fold_left].
  set (h := mkHost bp bw bh lp lh true true ef).
  assert (E2 : step f r (step f r (initial h) CallStartRecording)
                 ShowAnimationDone
               = mkState h true true true false 0 RecordLock.initial None None
                   (mkLifetime (Some false) true false false None)
                   0%nat [] 0%nat [RecordingStateChanges true; CaptureStart]).
  { vm_compute. reflexivity. }
  rewrite E2. clear E2.
  assert (E3 : forall s0,
             s0 = mkState h true true true false 0 RecordLock.initial None
                    None (mkLifetime (Some false) true false false None)
                    0%nat [] 0%nat
                    [RecordingStateChanges true; CaptureStart] ->
             step f r s0 (CaptureUpdate level samples)
               = mkState h true true true true samples
                   (RecordLock.mk false 0%Q) None (Some true)
                   (mkLifetime (Some true) true false false None)
                   0%nat [] 0%nat
                   [RecordingStateChanges true; CaptureStart;
                    LockShowStarts true;
                    SendActionUpdates (mkSendActionUpdate RecordVoice 0)]).
  { intros s0 ->. unfold step, captureUpdate, recordUpdated.
    cbv -[Z.ltb Z.geb kMaxSamples]. rewrite T1, T2. reflexivity. }
  rewrite (E3 _ eq_refl). clear E3.
  assert (E6 : forall s0, s0 = mkState h true true true true samples
                   (RecordLock.mk false 0%Q) None (Some true)
                   (mkLifetime (Some true) true false false None)
                   0%nat [] 0%nat
                   [RecordingStateChanges true; CaptureStart;
                    LockShowStarts true;
                    SendActionUpdates (mkSendActionUpdate RecordVoice 0)] ->
     step f r
       (step f r (step f r s0 (SendButtonEvent MouseButtonRelease))
          (ShowLockAnimationDone cursor))
       ShowAnimationDone
     = mkState h true false false false 0 RecordLock.initial None None
      emptyLifetime 1%nat [] 0%nat
      [RecordingStateChanges true; CaptureStart; LockShowStarts true;
       SendActionUpdates (mkSendActionUpdate RecordVoice 0);
       LockShowStarts false; RecordingStateChanges false;
       CaptureStopWithResult;
       SendActionUpdates (mkSendActionUpdate RecordVoice (-1))]).
  { intros s0 ->. vm_compute. reflexivity. }
  rewrite (E6 _ eq_refl). clear E6.
  unfold step, resultCallback. cbn [alive negb resultPending].
  destruct (res_bytes data) eqn:B; [contradiction Hd; reflexivity | ].
  reflexivity.
Qed.

Lemma press_hold_release_round_trip_witness :
  countEffects isSendVoiceRequest
    (log (run sampleFrequency sampleRadius (initial sampleHost)
            [CallStartRecording; ShowAnimationDone; CaptureUpdate 0 4800;
             SendButtonEvent MouseButtonRelease;
             ShowLockAnimationDone (mkQPoint 370 520); ShowAnimationDone;
             CaptureResult (mkResult [Byte.x01] [] 96000)]))
  = 1%nat.
Proof.
  rewrite (press_hold_release_round_trip sampleFrequency sampleRadius
             sampleHost 0 4800 (mkQPoint 370 520)
             (mkResult [Byte.x01] [] 96000)
             eq_refl eq_refl
             ltac:(unfold kMaxSamples, kAudioVoiceMaxLength, sampleFrequency;
                   lia)
             ltac:(discriminate)).
  reflexivity.
Defined.

(** ** The duration text of a negative count *)

Lemma QString_number_negative_digit (d : Z) :
  1 <= d <= 9 ->
  QString_number (- d) = String "-" (String (digit_char d) "").
Proof.
  intros H.
  assert (E : d = 1 \/ d = 2 \/ d = 3 \/ d = 4 \/ d = 5
              \/ d = 6 \/ d = 7 \/ d = 8 \/ d = 9) by lia.
  repeat (destruct E as [E | E]; [subst d; reflexivity | ]).
  subst d; reflexivity.
Qed.

(** For a negative sample count the tenths are truncated toward zero: they
    are the negated tenths of the count's absolute value, the seconds shown
    are the negated whole seconds, and the digit after the decimal point
    comes with a minus sign of its own unless it is 0. *)
Theorem FormatVoiceDuration_negative
    (f : Z) (fdt : Z -> string) (dp : ascii) (n : Z) :
  0 < f ->
  0 < n ->
  let d := ((10 * n) / f) mod 10 in
  voiceDurationTenths f (- n) = - ((10 * n) / f)
  /\ FormatVoiceDuration f fdt dp (- n)
     = (fdt (- (n / f))
        ++ String dp
             (if (d =? 0)%Z then "0"
              else String "-" (String (digit_char d) "")))%string.
Proof.
  intros Hf Hn d.
  assert (Ht : voiceDurationTenths f (- n) = - ((10 * n) / f)).
  { rewrite voiceDurationTenths_quot by assumption. unfold kPrecision.
    replace (10 * - n) with (- (10 * n)) by lia.
    rewrite Z.quot_opp_l by lia. rewrite Z.quot_div_nonneg by lia.
    reflexivity. }
  split; [exact Ht | ].
  unfold FormatVoiceDuration. rewrite Ht. unfold kPrecision.
  assert (Hq : 0 <= (10 * n) / f) by (apply Z.div_pos; lia).
  rewrite Z.quot_opp_l, Z.rem_opp_l by lia.
  rewrite Z.quot_div_nonneg, Z.rem_mod_nonneg by lia.
  rewrite Z.div_div by lia.
  replace (f * 10) with (10 * f) by lia.
  rewrite Z.div_mul_cancel_l by lia.
  fold d. f_equal. f_equal.
  assert (Hd : 0 <= d <= 9).
  { subst d. pose proof (Z.mod_pos_bound ((10 * n) / f) 10 ltac:(lia)). lia. }
  destruct (Z.eqb_spec d 0) as [E | E].
  - rewrite E. reflexivity.
  - apply QString_number_negative_digit. lia.
Qed.

Lemma FormatVoiceDuration_negative_witness :
  FormatVoiceDuration 48000 FormatDurationText "." (Z.opp 12345)
  = "0:00.-2"%string.
Proof.
  destruct (FormatVoiceDuration_negative 48000 FormatDurationText "." 12345
              ltac:(lia) ltac:(lia))
    as (_ & H).
  rewrite H. reflexivity.
Defined.


(** ** Sending from the locked phase *)

(** In the locked phase with no box open, a click on the level button and
    the keys Enter and Return all call [stop(true)], the keys being
    swallowed by the filter.  A press of a mouse button passes the filter
    untouched while the pointer is on the level button, so that the click
    can reach it, and otherwise is swallowed and opens the confirmation
    box.  At the end of the hide animation started by [stop(true)] the
    recording state changes to false and the backend is stopped with a
    result callback. *)
Theorem locked_click_or_enter_sends (f r : Z) (s : State) :
  alive s = true ->
  _recording s = true ->
  RecordLock.isLocked (_lock s) = true ->
  clickOutsideFilter (_recordingLifetime s) = Some None ->
  boxes s = [] ->
  levelClicks (_recordingLifetime s) = true ->
  let s' := step f r (stop true s) ShowAnimationDone in
  step f r s LevelClick = stop true s
  /\ filterCallback (KeyPress Key_Enter) s = (stop true s, FilterCancel)
  /\ filterCallback (KeyPress Key_Return) s = (stop true s, FilterCancel)
  /\ (_inField s = true ->
      filterCallback MouseButtonPress s = (s, FilterContinue))
  /\ (_inField s = false ->
      filterCallback MouseButtonPress s = (showBox s, FilterCancel)
      /\ boxes (showBox s) = [nextBox s])
  /\ emitted s s'
     = ((if _lockShowing s then [LockShowStarts false] else [])
        ++ [RecordingStateChanges false; CaptureStopWithResult;
            SendActionUpdates (mkSendActionUpdate RecordVoice (-1))])%list
  /\ resultPending s' = S (resultPending s).
Proof.
  intros Ha Hr Hl Hf Hb Hc s'.
  split.
  { unfold step, levelClick. rewrite Ha, Hc. reflexivity. }
  split.
  { unfold filterCallback, computeResult. rewrite Hf, Hl. reflexivity. }
  split.
  { unfold filterCallback, computeResult. rewrite Hf, Hl. reflexivity. }
  split.
  { intros Hi. unfold filterCallback, computeResult.
    rewrite Hf, Hl, Hi. reflexivity. }
  split.
  { intros Hi. split.
    - unfold filterCallback, computeResult. rewrite Hf, Hl, Hi. reflexivity.
    - unfold showBox. rewrite Hf. cbn [boxAlive]. cbn [boxes inLifetime
        set_recordingLifetime set_boxes]. rewrite Hb. reflexivity. }
  assert (E : s' = showAnimationDone (stop true s)).
  { subst s'. unfold step.
    destruct (stop_now true s) as (_ & _ & _ & _ & Hv).
    rewrite Hv, Ha. reflexivity. }
  clearbody s'. subst s'.
  destruct (stop_done true s) as (De & Dp & _).
  cbv zeta in De, Dp. rewrite Hr in De.
  split; [exact De | exact Dp].
Qed.

Lemma locked_click_or_enter_sends_witness :
  filterCallback (KeyPress Key_Enter) sampleLocked
  = (stop true sampleLocked, FilterCancel).
Proof.
  destruct (locked_click_or_enter_sends sampleFrequency sampleRadius
              sampleLocked
              ltac:(vm_compute; reflexivity) ltac:(vm_compute; reflexivity)
              ltac:(vm_compute; reflexivity) ltac:(vm_compute; reflexivity)
              ltac:(vm_compute; reflexivity) ltac:(vm_compute; reflexivity))
    as (_ & H & _).
  exact H.
Defined.
